(** * EduPace: role-based permissions, grade ingestion and report export

    A shallow embedding of [edupace_app/utils.py], of the data model of
    [edupace_app/models.py] and of the two grade views of
    [edupace_app/views.py], followed by the properties of the role resolver,
    the permission predicates, the spreadsheet ingestion and the export.

    Text is modelled by [string] (ASCII characters).  The persistent store is
    modelled by the lists of rows of its tables.  The numbers of Python are
    taken through the [Host] interface below; the reading of the upload and
    the rendering of the report are inputs of the functions that use them. *)

From Stdlib Require Import Bool Arith ZArith List Ascii String Lia DecimalString.
From Stdlib Require Import Sorted Permutation.
Import ListNotations.

Local Open Scope list_scope.
Local Open Scope string_scope.

(* ================================================================== *)
(** * Python strings *)

Module PyStr.

(** [c.isspace()] on the ASCII range: TAB, LF, VT, FF, CR, the four
    separators FS, GS, RS, US and the blank. *)
Definition isspace (c : ascii) : bool :=
  let n := nat_of_ascii c in
  (Nat.leb 9 n && Nat.leb n 13) || (Nat.leb 28 n && Nat.leb n 32).

Fixpoint lstrip (s : string) : string :=
  match s with
  | EmptyString => EmptyString
  | String c s' => if isspace c then lstrip s' else s
  end.

Fixpoint rstrip (s : string) : string :=
  match s with
  | EmptyString => EmptyString
  | String c s' =>
      match rstrip s' with
      | EmptyString => if isspace c then EmptyString else String c EmptyString
      | r => String c r
      end
  end.

(** [s.strip()] *)
Definition strip (s : string) : string := rstrip (lstrip s).

Definition lower_char (c : ascii) : ascii :=
  let n := nat_of_ascii c in
  if Nat.leb 65 n && Nat.leb n 90 then ascii_of_nat (n + 32) else c.

Definition upper_char (c : ascii) : ascii :=
  let n := nat_of_ascii c in
  if Nat.leb 97 n && Nat.leb n 122 then ascii_of_nat (n - 32) else c.

Fixpoint map_chars (f : ascii -> ascii) (s : string) : string :=
  match s with
  | EmptyString => EmptyString
  | String c s' => String (f c) (map_chars f s')
  end.

(** [s.lower()] and [s.upper()] *)
Definition lower : string -> string := map_chars lower_char.
Definition upper : string -> string := map_chars upper_char.

(** [sub in s] *)
Fixpoint contains (sub s : string) : bool :=
  if String.prefix sub s then true
  else match s with
       | EmptyString => false
       | String _ s' => contains sub s'
       end.

(** [str(n)] for a non-negative integer *)
Definition str_of_nat (n : nat) : string :=
  NilEmpty.string_of_uint (Nat.to_uint n).

(** Truth value of a string: only the empty string is false. *)
Definition truthy (s : string) : bool :=
  match s with EmptyString => false | _ => true end.

(** [x in xs] for a list of strings *)
Definition mem (x : string) (xs : list string) : bool :=
  existsb (String.eqb x) xs.

End PyStr.

(* ================================================================== *)
(** * Results of calls that may raise *)

Inductive Result (A : Type) : Type :=
| Ok (a : A)
| Raise (msg : string).

Arguments Ok {A} a.
Arguments Raise {A} msg.

(* ================================================================== *)
(** * The host: numbers

    [float(...)], [str(...)] of a number and the truth value of a number are
    builtins of Python; they are taken as an interface.  [float_of_str s] is
    [Raise msg] when [float(s)] raises [ValueError], with [msg] the text of
    the exception.  [decimal_field_error x] is the text of the exception
    that saving [x] into the column [percentage], a
    [DecimalField(max_digits=5, decimal_places=2)], raises, and [None] when
    the column can hold [x]. *)

Class Host : Type := {
  number : Type;
  float_of_str : string -> Result number;
  str_of_number : number -> string;
  number_truthy : number -> bool;
  nan : number;
  decimal_field_error : number -> option string
}.

(* ================================================================== *)
(** * models.py *)

Record Course : Type := {
  course_pk : nat;
  code : string;
  is_locked : bool
}.

(** A row of [django.contrib.auth.models.User]. *)
Record Account : Type := {
  account_pk : nat;
  username : string;
  first_name : string;
  last_name : string
}.

Record Teacher : Type := {
  teacher_employee_id : string;
  courses : list Course
}.

Record Student : Type := {
  student_pk : nat;
  student_user : Account;
  student_id : string
}.

Record AcademicBoard : Type := {
  board_employee_id : string
}.

(** [request.user]: the account, with the reverse one-to-one accessors.  An
    accessor that raises [RelatedObjectDoesNotExist] (so that [hasattr] is
    false) is [None]. *)
Record User : Type := {
  is_authenticated : bool;
  account : Account;
  teacher_profile : option Teacher;
  student_profile : option Student;
  academic_board_profile : option AcademicBoard
}.

(** Model instances compare by primary key. *)
Definition course_eqb (c1 c2 : Course) : bool :=
  Nat.eqb (course_pk c1) (course_pk c2).

(** [course in queryset] *)
Definition course_in (c : Course) (cs : list Course) : bool :=
  existsb (course_eqb c) cs.

(** [Grade.GRADE_CHOICES] *)
Definition GRADE_CHOICES : list (string * string) :=
  [ ("A+", "A+"); ("A", "A"); ("A-", "A-");
    ("B+", "B+"); ("B", "B"); ("B-", "B-");
    ("C+", "C+"); ("C", "C"); ("C-", "C-");
    ("D", "D"); ("F", "F") ].

(** [User.get_full_name]: first and last name joined by a blank, stripped. *)
Definition get_full_name (a : Account) : string :=
  PyStr.strip (first_name a ++ " " ++ last_name a).

(* ================================================================== *)
(** * utils.py: roles and permissions *)

Inductive Role : Type := teacher | student | academic_board.

Definition role_eqb (r1 r2 : Role) : bool :=
  match r1, r2 with
  | teacher, teacher | student, student | academic_board, academic_board => true
  | _, _ => false
  end.

Definition is_some {A} (o : option A) : bool :=
  match o with Some _ => true | None => false end.

(** [hasattr(user, name)] for the three profile accessors *)
Definition hasattr_teacher_profile (u : User) : bool := is_some (teacher_profile u).
Definition hasattr_student_profile (u : User) : bool := is_some (student_profile u).
Definition hasattr_academic_board_profile (u : User) : bool :=
  is_some (academic_board_profile u).

Definition get_user_role (user : User) : option Role :=
  if negb (is_authenticated user) then None
  else if hasattr_teacher_profile user then Some teacher
  else if hasattr_student_profile user then Some student
  else if hasattr_academic_board_profile user then Some academic_board
  else None.

(** [role == r] where [role] may be [None] *)
Definition role_is (o : option Role) (r : Role) : bool :=
  match o with Some r' => role_eqb r' r | None => false end.

Definition check_course_edit_permission (user : User) (course : Course) : bool :=
  if negb (role_is (get_user_role user) academic_board) then false
  else negb (is_locked course).

Definition check_learning_outcome_permission (user : User) (course : Course) : bool :=
  if negb (role_is (get_user_role user) teacher) then false
  else
    match teacher_profile user with
    | Some t =>
        if negb (course_in course (courses t)) then false
        else negb (is_locked course)
    | None => false   (* except Teacher.DoesNotExist *)
    end.

Definition check_grade_permission (user : User) (course : Course) : bool :=
  check_learning_outcome_permission user course.

(* ================================================================== *)
(** * utils.py: the spreadsheet ingestion *)

Section Ingestion.

Context {host : Host}.

(** A cell of the frame returned by [pd.read_excel]: an empty cell (NaN),
    a text cell or a numeric cell. *)
Inductive Cell : Type :=
| CNaN
| CStr (s : string)
| CNum (x : number).

(** [str(cell)] *)
Definition py_str (c : Cell) : string :=
  match c with
  | CNaN => "nan"
  | CStr s => s
  | CNum x => str_of_number x
  end.

(** [pd.notna(cell)] *)
Definition notna (c : Cell) : bool :=
  match c with CNaN => false | _ => true end.

(** [float(cell)] *)
Definition py_float (c : Cell) : Result number :=
  match c with
  | CNaN => Ok nan
  | CStr s => float_of_str s
  | CNum x => Ok x
  end.

(** The frame: the header labels and the data rows, one cell per label in
    each row.  The labels are text and, once normalised, pairwise distinct
    (under a label that occurs twice pandas finds a Series, not a cell). *)
Record DataFrame : Type := {
  columns : list string;
  rows : list (list Cell)
}.

(** [row[col]] and [row.get(col)]: the cell under the label [col], for a
    label that occurs once in [cols] and a row with a cell under every
    label (see [occurs_once]; under a label that occurs twice pandas finds a
    Series and under a label that does not occur it raises, which this
    function does not model). *)
Fixpoint getitem (cols : list string) (row : list Cell) (col : string) : Cell :=
  match cols, row with
  | c :: cols', x :: row' => if String.eqb c col then x else getitem cols' row' col
  | _, _ => CNaN
  end.

(** The label [col] occurs exactly once among [cols]. *)
Definition occurs_once (cols : list string) (col : string) : Prop :=
  List.length (filter (String.eqb col) cols) = 1.

(** The labels the row loop reads occur once each. *)
Definition labels_occur_once (cols : list string) (sid_col g_col : string)
           (pcol : option string) : Prop :=
  occurs_once cols sid_col /\ occurs_once cols g_col /\
  match pcol with Some pc => occurs_once cols pc | None => True end.

(** [df.columns.str.strip().str.lower()] *)
Definition normalize_columns (cols : list string) : list string :=
  map (fun c => PyStr.lower (PyStr.strip c)) cols.

(** The three variables of the header loop. *)
Record ColumnMap : Type := {
  student_id_col : option string;
  grade_col : option string;
  percentage_col : option string
}.

Definition no_columns : ColumnMap :=
  {| student_id_col := None; grade_col := None; percentage_col := None |}.

(** One iteration of [for col in df.columns]. *)
Definition map_column (m : ColumnMap) (col : string) : ColumnMap :=
  if PyStr.contains "student" col && PyStr.contains "id" col then
    {| student_id_col := Some col;
       grade_col := grade_col m;
       percentage_col := percentage_col m |}
  else if PyStr.contains "grade" col then
    {| student_id_col := student_id_col m;
       grade_col := Some col;
       percentage_col := percentage_col m |}
  else if PyStr.contains "percentage" col || PyStr.contains "percent" col then
    {| student_id_col := student_id_col m;
       grade_col := grade_col m;
       percentage_col := Some col |}
  else m.

Definition map_columns (cols : list string) : ColumnMap :=
  fold_left map_column cols no_columns.

(** The branch of the header loop a label takes, if any, and the variable
    that goes with a branch. *)
Inductive Category : Type := StudentIdColumn | GradeColumn | PercentageColumn.

Definition column_category (col : string) : option Category :=
  if PyStr.contains "student" col && PyStr.contains "id" col then Some StudentIdColumn
  else if PyStr.contains "grade" col then Some GradeColumn
  else if PyStr.contains "percentage" col || PyStr.contains "percent" col
       then Some PercentageColumn
  else None.

Definition category_eqb (c1 c2 : Category) : bool :=
  match c1, c2 with
  | StudentIdColumn, StudentIdColumn
  | GradeColumn, GradeColumn
  | PercentageColumn, PercentageColumn => true
  | _, _ => false
  end.

Definition mapped (m : ColumnMap) (c : Category) : option string :=
  match c with
  | StudentIdColumn => student_id_col m
  | GradeColumn => grade_col m
  | PercentageColumn => percentage_col m
  end.

(** Some label of the header takes the branch of [c]. *)
Definition has_category (cols : list string) (c : Category) : bool :=
  existsb (fun col => match column_category col with
                      | Some c' => category_eqb c' c
                      | None => false
                      end) cols.

(** Truth value of a variable that holds [None] or a label. *)
Definition col_truthy (o : option string) : bool :=
  match o with Some c => PyStr.truthy c | None => false end.

(** The label a variable holds once it is known not to be [None]. *)
Definition label (o : option string) : string :=
  match o with Some c => c | None => EmptyString end.

(** No label of the frame is taken for the student identifier, or none for
    the grade. *)
Definition required_columns_missing (df : DataFrame) : bool :=
  let cols := normalize_columns (columns df) in
  negb (has_category cols StudentIdColumn) || negb (has_category cols GradeColumn).

(** ** The Grade table *)

Record Grade : Type := {
  grade_student : Student;
  grade_course : Course;
  grade : string;
  percentage : option number;
  semester : string;
  academic_year : string;
  created_by : option Account
}.

(** The lookup of [update_or_create]: the four fields of
    [unique_together], the foreign keys compared by primary key. *)
Definition same_key (st : Student) (c : Course) (sem ay : string) (g : Grade) : bool :=
  Nat.eqb (student_pk (grade_student g)) (student_pk st)
  && course_eqb (grade_course g) c
  && String.eqb (semester g) sem
  && String.eqb (academic_year g) ay.

Definition set_defaults (gv : string) (pct : option number) (cb : option Account)
           (g : Grade) : Grade :=
  {| grade_student := grade_student g;
     grade_course := grade_course g;
     grade := gv;
     percentage := pct;
     semester := semester g;
     academic_year := academic_year g;
     created_by := cb |}.

(** What the update makes of a row of the table: the row that has the key
    takes the new values. *)
Definition write (st : Student) (c : Course) (sem ay : string)
           (gv : string) (pct : option number) (cb : option Account)
           (g : Grade) : Grade :=
  if same_key st c sem ay g then set_defaults gv pct cb g else g.

(** The text of [MultipleObjectsReturned] as [QuerySet.get] raises it: the
    count of the rows found, which [get] fetches up to 21. *)
Definition multiple_objects_returned (model : string) (num : nat) : string :=
  "get() returned more than one " ++ model ++ " -- it returned "
    ++ (if Nat.ltb num 21 then PyStr.str_of_nat num else "more than 20") ++ "!".

(** What saving a row with the percentage [pct] raises, if anything. *)
Definition percentage_error (pct : option number) : option string :=
  match pct with
  | Some x => decimal_field_error x
  | None => None
  end.

(** [Grade.objects.update_or_create(student=, course=, semester=,
    academic_year=, defaults={grade, percentage, created_by})]: the new
    table and the [created] flag.  The lookup is a [get], which raises when
    several rows match; then the row is saved, which raises when the column
    cannot hold the percentage, and nothing is written.  The table keeps a
    percentage that is saved as it is given; the rounding of the column to
    two decimals is the store's. *)
Definition update_or_create (table : list Grade)
           (st : Student) (c : Course) (sem ay : string)
           (gv : string) (pct : option number) (cb : option Account)
  : Result (list Grade * bool) :=
  match filter (same_key st c sem ay) table with
  | [] =>
      match percentage_error pct with
      | Some msg => Raise msg
      | None =>
          Ok ((table ++ [ {| grade_student := st; grade_course := c; grade := gv;
                            percentage := pct; semester := sem;
                            academic_year := ay; created_by := cb |} ])%list,
              true)
      end
  | [_] =>
      match percentage_error pct with
      | Some msg => Raise msg
      | None => Ok (map (write st c sem ay gv pct cb) table, false)
      end
  | found => Raise (multiple_objects_returned "Grade" (List.length found))
  end.

(** The constraint [unique_together] of [Grade.Meta]: no two rows of the
    table agree on the four fields. *)
Definition unique_together (table : list Grade) : Prop :=
  forall st c sem ay, List.length (filter (same_key st c sem ay) table) <= 1.

(** [Student.objects.get(student_id=...)] *)
Inductive GetStudent : Type :=
| Found (s : Student)
| DoesNotExist
| MultipleObjectsReturned (num : nat).

Definition Student_objects_get (students : list Student) (sid : string) : GetStudent :=
  match filter (fun s => String.eqb (student_id s) sid) students with
  | [] => DoesNotExist
  | [s] => Found s
  | found => MultipleObjectsReturned (List.length found)
  end.

(** [[choice[0] for choice in Grade.GRADE_CHOICES]] *)
Definition valid_grades : list string := map fst GRADE_CHOICES.

(** ** The row loop *)

(** The variables the loop updates, with the Grade table. *)
Record LoopState : Type := {
  table : list Grade;
  grades_created : nat;
  errors : list string
}.

Definition errors_append (st : LoopState) (e : string) : LoopState :=
  {| table := table st;
     grades_created := grades_created st;
     errors := (errors st ++ [e])%list |}.

(** The handler [except Exception as e] of the loop body. *)
Definition row_exception (st : LoopState) (index : nat) (msg : string) : LoopState :=
  errors_append st
    ("Error processing row " ++ PyStr.str_of_nat (index + 2) ++ ": " ++ msg).

(** The percentage of a row: [None] unless there is a percentage column
    and the cell is not NaN; [float] may raise. *)
Definition row_percentage (cols : list string) (pcol : option string)
           (row : list Cell) : Result (option number) :=
  match pcol with
  | Some pc =>
      if PyStr.truthy pc && notna (getitem cols row pc) then
        match py_float (getitem cols row pc) with
        | Ok x => Ok (Some x)
        | Raise msg => Raise msg
        end
      else Ok None
  | None => Ok None
  end.

(** The body of [for index, row in df.iterrows()]. *)
Definition process_row (students : list Student) (course : Course)
           (sem ay : string) (cb : option Account)
           (cols : list string) (sid_col g_col : string) (pcol : option string)
           (index : nat) (row : list Cell) (st : LoopState) : LoopState :=
  let sid := PyStr.strip (py_str (getitem cols row sid_col)) in
  let grade_value := PyStr.upper (PyStr.strip (py_str (getitem cols row g_col))) in
  match row_percentage cols pcol row with
  | Raise msg => row_exception st index msg
  | Ok pct =>
      match Student_objects_get students sid with
      | DoesNotExist =>
          errors_append st
            ("Student with ID " ++ sid ++ " not found (row "
               ++ PyStr.str_of_nat (index + 2) ++ ")")
      | MultipleObjectsReturned num =>
          row_exception st index (multiple_objects_returned "Student" num)
      | Found s =>
          if negb (PyStr.mem grade_value valid_grades) then
            errors_append st
              ("Invalid grade '" ++ grade_value ++ "' for student " ++ sid
                 ++ " (row " ++ PyStr.str_of_nat (index + 2) ++ ")")
          else
            match update_or_create (table st) s course sem ay grade_value pct cb with
            | Raise msg => row_exception st index msg
            | Ok (table', created) =>
                {| table := table';
                   grades_created :=
                     if created then grades_created st + 1 else grades_created st;
                   errors := errors st |}
            end
      end
  end.

Fixpoint process_rows (students : list Student) (course : Course)
         (sem ay : string) (cb : option Account)
         (cols : list string) (sid_col g_col : string) (pcol : option string)
         (index : nat) (rs : list (list Cell)) (st : LoopState) : LoopState :=
  match rs with
  | [] => st
  | row :: rs' =>
      process_rows students course sem ay cb cols sid_col g_col pcol (S index) rs'
        (process_row students course sem ay cb cols sid_col g_col pcol index row st)
  end.

(** In the words of the specification, the count of updated records: the
    rows whose [update_or_create] returns [created = False]. *)
Definition row_updates (students : list Student) (course : Course)
           (sem ay : string) (cb : option Account)
           (cols : list string) (sid_col g_col : string) (pcol : option string)
           (row : list Cell) (st : LoopState) : bool :=
  let sid := PyStr.strip (py_str (getitem cols row sid_col)) in
  let grade_value := PyStr.upper (PyStr.strip (py_str (getitem cols row g_col))) in
  match row_percentage cols pcol row with
  | Raise _ => false
  | Ok pct =>
      match Student_objects_get students sid with
      | Found s =>
          if negb (PyStr.mem grade_value valid_grades) then false
          else
            match update_or_create (table st) s course sem ay grade_value pct cb with
            | Ok (_, created) => negb created
            | Raise _ => false
            end
      | _ => false
      end
  end.

Fixpoint updated_count (students : list Student) (course : Course)
         (sem ay : string) (cb : option Account)
         (cols : list string) (sid_col g_col : string) (pcol : option string)
         (index : nat) (rs : list (list Cell)) (st : LoopState) : nat :=
  match rs with
  | [] => 0
  | row :: rs' =>
      (if row_updates students course sem ay cb cols sid_col g_col pcol row st
       then 1 else 0)
      + updated_count students course sem ay cb cols sid_col g_col pcol (S index) rs'
          (process_row students course sem ay cb cols sid_col g_col pcol index row st)
  end.

Definition spec_updated (students : list Student) (grades : list Grade)
           (df : DataFrame) (course : Course) (sem ay : string)
           (cb : option Account) : nat :=
  let cols := normalize_columns (columns df) in
  let m := map_columns cols in
  updated_count students course sem ay cb cols
    (label (student_id_col m)) (label (grade_col m)) (percentage_col m)
    0 (rows df)
    {| table := grades; grades_created := 0; errors := [] |}.

(** The three texts a row error can have, with the row number they carry. *)
Inductive cites_row : string -> nat -> Prop :=
| cites_not_found (sid : string) (n : nat) :
    cites_row ("Student with ID " ++ sid ++ " not found (row "
                 ++ PyStr.str_of_nat n ++ ")") n
| cites_invalid_grade (gv sid : string) (n : nat) :
    cites_row ("Invalid grade '" ++ gv ++ "' for student " ++ sid
                 ++ " (row " ++ PyStr.str_of_nat n ++ ")") n
| cites_exception (msg : string) (n : nat) :
    cites_row ("Error processing row " ++ PyStr.str_of_nat n ++ ": " ++ msg) n.

Definition columns_message : string :=
  "Excel file must contain 'Student ID' and 'Grade' columns".

(** What [process_excel_grades] returns: a pair on one path, a triple on
    the others. *)
Inductive Returned : Type :=
| Tuple2 (success : bool) (message : string)
| Tuple3 (success : bool) (message : string) (errs : list string).

Definition summary_message (created : nat) (errs : list string) : string :=
  let message :=
    "Successfully created/updated " ++ PyStr.str_of_nat created ++ " grade(s)." in
  match errs with
  | [] => message
  | _ => message ++ " " ++ PyStr.str_of_nat (List.length errs) ++ " error(s) occurred."
  end.

(** [process_excel_grades(excel_file, course, semester, academic_year,
    created_by)].  [excel_file] is what [pd.read_excel] and the
    normalisation of the labels make of the upload: a frame, or the
    exception they raise (an unreadable file, a header that is not text),
    which the outer handler catches.  The function returns its value and
    the Grade table it leaves. *)
Definition process_excel_grades (students : list Student) (grades : list Grade)
           (excel_file : Result DataFrame) (course : Course)
           (sem ay : string) (cb : option Account)
  : Returned * list Grade :=
  match excel_file with
  | Raise msg => (Tuple3 false ("Error processing Excel file: " ++ msg) [], grades)
  | Ok df =>
      let cols := normalize_columns (columns df) in
      let m := map_columns cols in
      if negb (col_truthy (student_id_col m)) || negb (col_truthy (grade_col m)) then
        (Tuple2 false columns_message, grades)
      else
        let st :=
          process_rows students course sem ay cb cols
            (label (student_id_col m)) (label (grade_col m)) (percentage_col m)
            0 (rows df)
            {| table := grades; grades_created := 0; errors := [] |} in
        (Tuple3 true (summary_message (grades_created st) (errors st)) (errors st),
         table st)
  end.

End Ingestion.

(* ================================================================== *)
(** * utils.py and views.py: the two grade views *)

(** [get_user_profile]: the profile object that goes with the role. *)
Inductive Profile : Type :=
| TeacherProfile (t : Teacher)
| StudentProfile (s : Student)
| AcademicBoardProfile (b : AcademicBoard).

Definition get_user_profile (user : User) : option Profile :=
  match get_user_role user with
  | Some teacher => option_map TeacherProfile (teacher_profile user)
  | Some student => option_map StudentProfile (student_profile user)
  | Some academic_board => option_map AcademicBoardProfile (academic_board_profile user)
  | None => None
  end.

Inductive Method : Type := GET | POST.

Inductive Level : Type := msg_error | msg_success | msg_warning.

(** A notification queued by [django.contrib.messages]. *)
Definition Message : Type := (Level * string)%type.

Section Views.

Context {host : Host}.

(** A cell of the exported table: text or a number. *)
Inductive Value : Type :=
| VStr (s : string)
| VNum (x : number).

(** A row of the export: the dict built for one grade, in key order. *)
Definition ExportRow : Type := list (string * Value).

Inductive Response : Type :=
| Redirect (to : string) (arg : option nat)
| Render (template : string)
| Http404
| FileResponse (filename : string) (data : list ExportRow)
| Unhandled (exception : string).

(** [form.cleaned_data] of a valid [GradeUploadForm]. *)
Record CleanedData : Type := {
  excel_file : Result DataFrame;
  form_semester : string;
  form_academic_year : string
}.

(** The request: the principal, the method and, for a POST, the cleaned
    data when [form.is_valid()] holds. *)
Record Request : Type := {
  req_user : User;
  req_method : Method;
  req_form : option CleanedData
}.

(** [get_object_or_404(Course, id=course_id)] *)
Definition get_object_or_404 (all_courses : list Course) (course_id : nat)
  : option Course :=
  find (fun c => Nat.eqb (course_pk c) course_id) all_courses.

(** [@login_required] then [@role_required(role)] around a view body. *)
Definition role_required {S : Type} (allowed : list Role) (request : Request)
           (unchanged : S) (view : Response * list Message * S)
  : Response * list Message * S :=
  if negb (is_authenticated (req_user request)) then
    (Redirect "login" None, [], unchanged)
  else
    match get_user_role (req_user request) with
    | Some r =>
        if existsb (role_eqb r) allowed then view
        else (Redirect "edupace_app:dashboard_redirect" None,
              [(msg_error, "You do not have permission to access this page.")],
              unchanged)
    | None =>
        (Redirect "edupace_app:dashboard_redirect" None,
         [(msg_error, "You do not have permission to access this page.")],
         unchanged)
    end.

(** [upload_grades(request, course_id)]: the response, the queued messages
    and the Grade table after the request. *)
Definition upload_grades (all_courses : list Course) (students : list Student)
           (grades : list Grade) (request : Request) (course_id : nat)
  : Response * list Message * list Grade :=
  role_required [teacher] request grades
    match get_object_or_404 all_courses course_id with
    | None => (Http404, [], grades)
    | Some course =>
        if negb (check_grade_permission (req_user request) course) then
          (Redirect "edupace_app:teacher_course_detail" (Some course_id),
           [(msg_error, "You cannot upload grades for this course.")], grades)
        else
          match req_method request, req_form request with
          | POST, Some form =>
              match process_excel_grades students grades (excel_file form) course
                      (form_semester form) (form_academic_year form)
                      (Some (account (req_user request))) with
              | (Tuple3 success message errs, grades') =>
                  (Redirect "edupace_app:teacher_course_detail" (Some course_id),
                   if success then
                     ((msg_success, message)
                        :: map (fun e => (msg_warning, e)) (firstn 10 errs))
                   else [(msg_error, message)],
                   grades')
              | (Tuple2 _ _, grades') =>
                  (Unhandled "ValueError: not enough values to unpack (expected 3, got 2)",
                   [], grades')
              end
          | _, _ => (Render "edupace_app/teacher/upload_grades.html", [], grades)
          end
    end.

(** [x or ''] for a text field *)
Definition text_or_empty (s : string) : Value := VStr s.

(** [grade.percentage or ''] *)
Definition percentage_or_empty (p : option number) : Value :=
  match p with
  | Some x => if number_truthy x then VNum x else VStr EmptyString
  | None => VStr EmptyString
  end.

(** [user.get_full_name() or user.username] *)
Definition full_name_or_username (a : Account) : string :=
  if PyStr.truthy (get_full_name a) then get_full_name a else username a.

(** The dict appended to [data] for one grade. *)
Definition export_row (g : Grade) : ExportRow :=
  [ ("Student ID", VStr (student_id (grade_student g)));
    ("Student Name", VStr (full_name_or_username (student_user (grade_student g))));
    ("Grade", VStr (grade g));
    ("Percentage", percentage_or_empty (percentage g));
    ("Semester", text_or_empty (semester g));
    ("Academic Year", text_or_empty (academic_year g)) ].

(** What becomes of [data] in the renderer: [excel_to_pdf] returns [True]
    or [False], or an exception is raised on the way. *)
Inductive Rendering : Type :=
| Built
| NotBuilt
| RenderingRaised (msg : string).

(** [Grade.Meta.ordering = ['-academic_year', '-semester', 'course']], the
    course by [Course.Meta.ordering = ['code']]: [g1] may come before [g2].
    Text is compared character by character, as the binary collation of the
    store does. *)
Definition meta_ordering_le (g1 g2 : Grade) : bool :=
  match String.compare (academic_year g2) (academic_year g1) with
  | Lt => true
  | Gt => false
  | Eq =>
      match String.compare (semester g2) (semester g1) with
      | Lt => true
      | Gt => false
      | Eq => String.leb (code (grade_course g1)) (code (grade_course g2))
      end
  end.

Fixpoint insert_ordered (g : Grade) (l : list Grade) : list Grade :=
  match l with
  | [] => [g]
  | h :: t => if meta_ordering_le g h then g :: l else h :: insert_ordered g t
  end.

(** The rows in the order of [Grade.Meta.ordering]; rows that the ordering
    does not tell apart stay in the order of the table. *)
Definition order_by_meta (l : list Grade) : list Grade :=
  fold_right insert_ordered [] l.

(** [Grade.objects.filter(course=course)], iterated *)
Definition grades_of_course (grades : list Grade) (course : Course) : list Grade :=
  order_by_meta (filter (fun g => course_eqb (grade_course g) course) grades).

(** [convert_grades_to_pdf(request, course_id)] *)
Definition convert_grades_to_pdf (excel_to_pdf : list ExportRow -> Rendering)
           (all_courses : list Course) (grades : list Grade)
           (request : Request) (course_id : nat)
  : Response * list Message * unit :=
  role_required [teacher] request tt
    match get_object_or_404 all_courses course_id with
    | None => (Http404, [], tt)
    | Some course =>
        match get_user_profile (req_user request) with
        | Some (TeacherProfile t) =>
            if negb (course_in course (courses t)) then
              (Redirect "edupace_app:teacher_dashboard" None,
               [(msg_error, "You do not teach this course.")], tt)
            else
              let grades := grades_of_course grades course in
              match grades with
              | [] =>
                  (Redirect "edupace_app:teacher_course_detail" (Some course_id),
                   [(msg_error, "No grades found for this course.")], tt)
              | _ =>
                  let data := map export_row grades in
                  match excel_to_pdf data with
                  | Built =>
                      (FileResponse (code course ++ "_grades.pdf") data, [], tt)
                  | NotBuilt =>
                      (Redirect "edupace_app:teacher_course_detail" (Some course_id),
                       [(msg_error, "Error converting grades to PDF.")], tt)
                  | RenderingRaised msg =>
                      (Redirect "edupace_app:teacher_course_detail" (Some course_id),
                       [(msg_error, "Error generating PDF: " ++ msg)], tt)
                  end
              end
        | _ => (Unhandled "AttributeError", [], tt)   (* teacher.courses *)
        end
    end.

End Views.

(* ================================================================== *)
(** * A small host and sample data *)

(** A host whose numbers are the whole numbers: [float] accepts a run of
    decimal digits between blanks and raises [ValueError] on other text; the
    column of five digits, two of them decimals, holds the numbers below
    1000. *)
Module WholeNumbers.

Fixpoint digits_value (s : string) (acc : nat) : option nat :=
  match s with
  | EmptyString => Some acc
  | String c s' =>
      let n := nat_of_ascii c in
      if Nat.leb 48 n && Nat.leb n 57
      then digits_value s' (10 * acc + (n - 48))
      else None
  end.

Definition value_error (s : string) : string :=
  "could not convert string to float: '" ++ s ++ "'".

Definition whole_of_str (s : string) : Result nat :=
  match PyStr.strip s with
  | EmptyString => Raise (value_error s)
  | t => match digits_value t 0 with
         | Some n => Ok n
         | None => Raise (value_error s)
         end
  end.

Definition str_of_whole (n : nat) : string := PyStr.str_of_nat n ++ ".0".

Definition host : Host :=
  {| number := nat;
     float_of_str := whole_of_str;
     str_of_number := str_of_whole;
     number_truthy := fun n => negb (Nat.eqb n 0);
     nan := 0;
     decimal_field_error :=
       fun n => if Nat.leb 1000 n then Some "[<class 'decimal.InvalidOperation'>]"
                else None |}.

End WholeNumbers.

Module Sample.

Definition cs101 : Course :=
  {| course_pk := 1; code := "CS101"; is_locked := false |}.

Definition cs102_locked : Course :=
  {| course_pk := 2; code := "CS102"; is_locked := true |}.

Definition mk_account (pk : nat) (name first last : string) : Account :=
  {| account_pk := pk; username := name; first_name := first; last_name := last |}.

Definition stu001 : Student :=
  {| student_pk := 1; student_user := mk_account 11 "alice" "Alice" "Smith";
     student_id := "STU001" |}.

Definition stu002 : Student :=
  {| student_pk := 2; student_user := mk_account 12 "bob" EmptyString EmptyString;
     student_id := "STU002" |}.

Definition students : list Student := [stu001; stu002].

Definition prof : Teacher :=
  {| teacher_employee_id := "T001"; courses := [cs101; cs102_locked] |}.

Definition teacher_user : User :=
  {| is_authenticated := true;
     account := mk_account 21 "prof" "Pat" "Jones";
     teacher_profile := Some prof;
     student_profile := None;
     academic_board_profile := None |}.

Definition student_user_alice : User :=
  {| is_authenticated := true;
     account := student_user stu001;
     teacher_profile := None;
     student_profile := Some stu001;
     academic_board_profile := None |}.

Definition board_user : User :=
  {| is_authenticated := true;
     account := mk_account 31 "dean" "Dana" "Lee";
     teacher_profile := None;
     student_profile := None;
     academic_board_profile := Some {| board_employee_id := "B001" |} |}.

Definition plain_user : User :=
  {| is_authenticated := true;
     account := mk_account 41 "guest" EmptyString EmptyString;
     teacher_profile := None;
     student_profile := None;
     academic_board_profile := None |}.

Definition anonymous : User :=
  {| is_authenticated := false;
     account := mk_account 0 EmptyString EmptyString EmptyString;
     teacher_profile := None;
     student_profile := None;
     academic_board_profile := None |}.

Definition Frame : Type := @DataFrame WholeNumbers.host.
Definition Row : Type := list (@Cell WholeNumbers.host).
Definition text (s : string) : @Cell WholeNumbers.host := CStr s.
Definition empty_cell : @Cell WholeNumbers.host := CNaN.

(** An upload without a grade column. *)
Definition frame_without_grade : Frame :=
  {| columns := ["Student ID"; "Percentage"];
     rows := [[text "STU001"; text "90"]] |}.

(** STU001 already has a B in CS101. *)
Definition grade_b : @Grade WholeNumbers.host :=
  {| grade_student := stu001; grade_course := cs101; grade := "B";
     percentage := None; semester := "Fall 2024";
     academic_year := "2024-2025"; created_by := None |}.

Definition frame_one_row : Frame :=
  {| columns := ["Student ID"; "Grade"];
     rows := [[text "STU001"; text "A"]] |}.

Definition frame_no_rows : Frame :=
  {| columns := ["Student ID"; "Grade"]; rows := [] |}.

(** A row that names an unknown student and has text for a percentage. *)
Definition frame_unknown_student_bad_percentage : Frame :=
  {| columns := ["Student ID"; "Grade"; "Percentage"];
     rows := [[text "STU999"; text "A"; text "abc"]] |}.

(** Three rows with a percentage column: a good one, one with text for a
    percentage, one with an empty percentage cell. *)
Definition good_row : Row := [text "STU001"; text "A"; text "90"].
Definition bad_percentage_row : Row := [text "STU002"; text "B"; text "abc"].
Definition empty_percentage_row : Row := [text "STU002"; text "C+"; empty_cell].

Definition no_grades : @LoopState WholeNumbers.host :=
  {| table := []; grades_created := 0; errors := [] |}.

(** Two grades in CS101 and a renderer that always succeeds. *)
Definition grade_of_bob : @Grade WholeNumbers.host :=
  {| grade_student := stu002; grade_course := cs101; grade := "A-";
     percentage := @Some (@number WholeNumbers.host) 88; semester := "Fall 2024";
     academic_year := "2024-2025"; created_by := None |}.

Definition always_built (data : list (@ExportRow WholeNumbers.host)) : Rendering :=
  Built.

Definition prof_request (m : Method) (f : option (@CleanedData WholeNumbers.host))
  : @Request WholeNumbers.host :=
  {| req_user := teacher_user; req_method := m; req_form := f |}.

Definition form_of (df : Frame) : @CleanedData WholeNumbers.host :=
  {| excel_file := Ok df;
     form_semester := "Fall 2024";
     form_academic_year := "2024-2025" |}.

End Sample.

(* ================================================================== *)
(** * Relations between two states of the Grade table *)

(** [after] keeps the rows of [before]: each is still there, at its place,
    with its student, course, semester and academic year, and a row of
    another course, semester or academic year than the given ones is
    unchanged. *)
Definition keeps_rows {host : Host} (course : Course) (sem ay : string)
           (before after : list Grade) : Prop :=
  forall i g,
    nth_error before i = Some g ->
    exists g',
      nth_error after i = Some g' /\
      grade_student g' = grade_student g /\
      grade_course g' = grade_course g /\
      semester g' = semester g /\
      academic_year g' = academic_year g /\
      (course_eqb (grade_course g) course && String.eqb (semester g) sem
         && String.eqb (academic_year g) ay = false -> g' = g).

(* ================================================================== *)
(** * views.py: login and dashboards *)

(** [s.title()]: the first letter of each run of letters in upper case, the
    others in lower case. *)
Fixpoint title_from (previous_is_cased : bool) (s : string) : string :=
  match s with
  | EmptyString => EmptyString
  | String c s' =>
      let n := nat_of_ascii c in
      let cased := (Nat.leb 65 n && Nat.leb n 90) || (Nat.leb 97 n && Nat.leb n 122) in
      String (if cased
              then if previous_is_cased then PyStr.lower_char c else PyStr.upper_char c
              else c)
             (title_from cased s')
  end.

Definition title (s : string) : string := title_from false s.

(** The value of the choice field [role] of [RoleLoginForm]. *)
Definition role_value (r : Role) : string :=
  match r with
  | student => "student"
  | teacher => "teacher"
  | academic_board => "academic_board"
  end.

Section SessionViews.

Context {host : Host}.

(** [login_view(request)].  [form] is the user and the role of a valid
    [RoleLoginForm]; the third component is the user given to [login]. *)
Definition login_view (request : Request) (form : option (User * Role))
  : Response * list Message * option User :=
  if is_authenticated (req_user request) then
    (Redirect "edupace_app:dashboard_redirect" None, [], None)
  else
    match req_method request, form with
    | POST, Some (user, role) =>
        if negb (role_is (get_user_role user) role) then
          (Render "edupace_app/login.html",
           [(msg_error,
             "This account is not registered as a " ++ title (role_value role) ++ ".")],
           None)
        else
          (Redirect "edupace_app:dashboard_redirect" None,
           [(msg_success, "Welcome, " ++ full_name_or_username (account user) ++ "!")],
           Some user)
    | _, _ => (Render "edupace_app/login.html", [], None)
    end.

(** [dashboard_redirect(request)], behind [@login_required]. *)
Definition dashboard_redirect (request : Request) : Response * list Message :=
  if negb (is_authenticated (req_user request)) then (Redirect "login" None, [])
  else
    match get_user_role (req_user request) with
    | Some student => (Redirect "edupace_app:student_dashboard" None, [])
    | Some teacher => (Redirect "edupace_app:teacher_dashboard" None, [])
    | Some academic_board => (Redirect "edupace_app:academic_board_dashboard" None, [])
    | None =>
        (Redirect "edupace_app:login" None,
         [(msg_error, "Your account is not associated with any role.")])
    end.

(** The three dashboards: behind their gate they query and render. *)
Definition student_dashboard (request : Request) : Response * list Message * unit :=
  role_required [student] request tt
    (Render "edupace_app/student/dashboard.html", [], tt).

Definition teacher_dashboard (request : Request) : Response * list Message * unit :=
  role_required [teacher] request tt
    (Render "edupace_app/teacher/dashboard.html", [], tt).

Definition academic_board_dashboard (request : Request)
  : Response * list Message * unit :=
  role_required [academic_board] request tt
    (Render "edupace_app/academic_board/dashboard.html", [], tt).

(** What the browser gets when it follows a redirect to one of these names
    of urls.py: the answer of the view to a GET of the same user. *)
Definition follow (request : Request) (name : string)
  : option (Response * list Message) :=
  let get := {| req_user := req_user request; req_method := GET; req_form := None |} in
  if String.eqb name "edupace_app:login" then Some (fst (login_view get None))
  else if String.eqb name "edupace_app:dashboard_redirect" then
    Some (dashboard_redirect get)
  else if String.eqb name "edupace_app:student_dashboard" then
    Some (fst (student_dashboard get))
  else if String.eqb name "edupace_app:teacher_dashboard" then
    Some (fst (teacher_dashboard get))
  else if String.eqb name "edupace_app:academic_board_dashboard" then
    Some (fst (academic_board_dashboard get))
  else None.

(* ------------------------------------------------------------------ *)
(** ** The course views of the academic board *)

(** A row of the Course table, with the columns the form writes (the two
    timestamps are left out). *)
Record CourseRow : Type := {
  course_of : Course;
  course_name : string;
  course_description : string;
  course_credits : Z
}.

(** [form.cleaned_data] of a valid [CourseForm]. *)
Record CourseFormData : Type := {
  form_code : string;
  form_name : string;
  form_description : string;
  form_credits : Z;
  form_is_locked : bool
}.

Definition row_pk (r : CourseRow) : nat := course_pk (course_of r).

(** The row that [form.save()] writes under the key [pk]. *)
Definition course_from_form (pk : nat) (f : CourseFormData) : CourseRow :=
  {| course_of := {| course_pk := pk; code := form_code f;
                     is_locked := form_is_locked f |};
     course_name := form_name f;
     course_description := form_description f;
     course_credits := form_credits f |}.

(** [get_object_or_404(Course, id=course_id)] on the rows *)
Definition get_course_or_404 (table : list CourseRow) (course_id : nat)
  : option CourseRow :=
  find (fun r => Nat.eqb (row_pk r) course_id) table.

(** [create_course(request)]; [new_pk] is the key the store gives the row. *)
Definition create_course (table : list CourseRow) (request : Request)
           (form : option CourseFormData) (new_pk : nat)
  : Response * list Message * list CourseRow :=
  role_required [academic_board] request table
    match req_method request, form with
    | POST, Some f =>
        (Redirect "edupace_app:academic_board_course_detail" (Some new_pk),
         [(msg_success, "Course " ++ form_code f ++ " created successfully.")],
         (table ++ [course_from_form new_pk f])%list)
    | _, _ => (Render "edupace_app/academic_board/create_course.html", [], table)
    end.

(** [edit_course(request, course_id)] *)
Definition edit_course (table : list CourseRow) (request : Request)
           (form : option CourseFormData) (course_id : nat)
  : Response * list Message * list CourseRow :=
  role_required [academic_board] request table
    match get_course_or_404 table course_id with
    | None => (Http404, [], table)
    | Some r =>
        if negb (check_course_edit_permission (req_user request) (course_of r)) then
          (Redirect "edupace_app:academic_board_course_detail" (Some course_id),
           [(msg_error, "This course is locked and cannot be edited.")], table)
        else
          match req_method request, form with
          | POST, Some f =>
              (Redirect "edupace_app:academic_board_course_detail" (Some course_id),
               [(msg_success, "Course updated successfully.")],
               map (fun x => if Nat.eqb (row_pk x) (row_pk r)
                             then course_from_form (row_pk x) f else x) table)
          | _, _ => (Render "edupace_app/academic_board/edit_course.html", [], table)
          end
    end.

(** [delete_course(request, course_id)], as far as the Course table goes
    (the store also deletes the rows of other tables that point to the
    course). *)
Definition delete_course (table : list CourseRow) (request : Request)
           (course_id : nat)
  : Response * list Message * list CourseRow :=
  role_required [academic_board] request table
    match get_course_or_404 table course_id with
    | None => (Http404, [], table)
    | Some r =>
        if negb (check_course_edit_permission (req_user request) (course_of r)) then
          (Redirect "edupace_app:academic_board_course_detail" (Some course_id),
           [(msg_error, "This course is locked and cannot be deleted.")], table)
        else
          match req_method request with
          | POST =>
              (Redirect "edupace_app:academic_board_dashboard" None,
               [(msg_success,
                 "Course " ++ code (course_of r) ++ " deleted successfully.")],
               filter (fun x => negb (Nat.eqb (row_pk x) (row_pk r))) table)
          | GET => (Render "edupace_app/academic_board/delete_course.html", [], table)
          end
    end.

(** A request to one of the three views. *)
Inductive CourseAction : Type :=
| CreateCourse (request : Request) (form : option CourseFormData) (new_pk : nat)
| EditCourse (request : Request) (form : option CourseFormData) (course_id : nat)
| DeleteCourse (request : Request) (course_id : nat).

Definition perform (table : list CourseRow) (a : CourseAction) : list CourseRow :=
  match a with
  | CreateCourse request form new_pk => snd (create_course table request form new_pk)
  | EditCourse request form course_id => snd (edit_course table request form course_id)
  | DeleteCourse request course_id => snd (delete_course table request course_id)
  end.

Definition perform_all (actions : list CourseAction) (table : list CourseRow)
  : list CourseRow :=
  fold_left perform actions table.

(** The store gives every created row a key that no row has. *)
Fixpoint fresh_keys (actions : list CourseAction) (table : list CourseRow) : Prop :=
  match actions with
  | [] => True
  | a :: rest =>
      match a with
      | CreateCourse _ _ new_pk => ~ In new_pk (map row_pk table)
      | _ => True
      end /\ fresh_keys rest (perform table a)
  end.

(* ------------------------------------------------------------------ *)
(** ** The learning-outcome views of the teacher *)

Record LearningOutcome : Type := {
  lo_pk : nat;
  lo_course : nat;           (* the key of the course *)
  lo_code : string;
  lo_description : string;
  lo_created_by : option Account
}.

(** [form.cleaned_data] of a valid [LearningOutcomeForm]. *)
Record OutcomeFormData : Type := {
  outcome_code : string;
  outcome_description : string
}.

(** Another row of the table has the course and the code: the constraint
    [unique_together] of [LearningOutcome.Meta], which the form does not
    check (the course is no field of the form) and the store enforces. *)
Definition code_taken (table : list LearningOutcome) (self course_id : nat)
           (c : string) : bool :=
  existsb (fun o => Nat.eqb (lo_course o) course_id && String.eqb (lo_code o) c
                    && negb (Nat.eqb (lo_pk o) self)) table.

(** [add_learning_outcome(request, course_id)] *)
Definition add_learning_outcome (all_courses : list Course)
           (table : list LearningOutcome) (request : Request)
           (form : option OutcomeFormData) (course_id new_pk : nat)
  : Response * list Message * list LearningOutcome :=
  role_required [teacher] request table
    match get_object_or_404 all_courses course_id with
    | None => (Http404, [], table)
    | Some course =>
        if negb (check_learning_outcome_permission (req_user request) course) then
          (Redirect "edupace_app:teacher_course_detail" (Some course_id),
           [(msg_error, "You cannot add learning outcomes to this course.")], table)
        else
          match req_method request, form with
          | POST, Some f =>
              if code_taken table new_pk (course_pk course) (outcome_code f) then
                (Unhandled "IntegrityError", [], table)
              else
                (Redirect "edupace_app:teacher_course_detail" (Some course_id),
                 [(msg_success,
                   "Learning outcome " ++ outcome_code f ++ " added successfully.")],
                 (table ++ [ {| lo_pk := new_pk; lo_course := course_pk course;
                                lo_code := outcome_code f;
                                lo_description := outcome_description f;
                                lo_created_by := Some (account (req_user request)) |} ])%list)
          | _, _ => (Render "edupace_app/teacher/add_learning_outcome.html", [], table)
          end
    end.

(** [get_object_or_404(LearningOutcome, id=lo_id)] *)
Definition get_outcome_or_404 (table : list LearningOutcome) (lo_id : nat)
  : option LearningOutcome :=
  find (fun o => Nat.eqb (lo_pk o) lo_id) table.

(** The two checks that [edit_learning_outcome] and
    [delete_learning_outcome] make before they look at the method, each
    with its own verb in the messages: the answer when one fails, the course
    of the outcome when both pass. *)
Definition outcome_checks (all_courses : list Course) (request : Request)
           (lo : LearningOutcome) (verb : string)
  : Response * list Message + Course :=
  match get_object_or_404 all_courses (lo_course lo) with
  | None => inl (Unhandled "RelatedObjectDoesNotExist", [])
  | Some course =>
      match get_user_profile (req_user request) with
      | Some (TeacherProfile t) =>
          if negb (course_in course (courses t)) then
            inl (Redirect "edupace_app:teacher_dashboard" None,
                 [(msg_error, "You do not have permission to "
                                ++ verb ++ " this learning outcome.")])
          else if is_locked course then
            inl (Redirect "edupace_app:teacher_course_detail" (Some (course_pk course)),
                 [(msg_error, "This course is locked. You cannot "
                                ++ verb ++ " learning outcomes.")])
          else inr course
      | _ => inl (Unhandled "AttributeError", [])
      end
  end.

(** [edit_learning_outcome(request, lo_id)] *)
Definition edit_learning_outcome (all_courses : list Course)
           (table : list LearningOutcome) (request : Request)
           (form : option OutcomeFormData) (lo_id : nat)
  : Response * list Message * list LearningOutcome :=
  role_required [teacher] request table
    match get_outcome_or_404 table lo_id with
    | None => (Http404, [], table)
    | Some lo =>
        match outcome_checks all_courses request lo "edit" with
        | inl (response, messages) => (response, messages, table)
        | inr course =>
            match req_method request, form with
            | POST, Some f =>
                if code_taken table (lo_pk lo) (lo_course lo) (outcome_code f) then
                  (Unhandled "IntegrityError", [], table)
                else
                  (Redirect "edupace_app:teacher_course_detail" (Some (course_pk course)),
                   [(msg_success, "Learning outcome updated successfully.")],
                   map (fun o => if Nat.eqb (lo_pk o) (lo_pk lo)
                                 then {| lo_pk := lo_pk o; lo_course := lo_course o;
                                         lo_code := outcome_code f;
                                         lo_description := outcome_description f;
                                         lo_created_by := lo_created_by o |}
                                 else o) table)
            | _, _ =>
                (Render "edupace_app/teacher/edit_learning_outcome.html", [], table)
            end
        end
    end.

(** [delete_learning_outcome(request, lo_id)] *)
Definition delete_learning_outcome (all_courses : list Course)
           (table : list LearningOutcome) (request : Request) (lo_id : nat)
  : Response * list Message * list LearningOutcome :=
  role_required [teacher] request table
    match get_outcome_or_404 table lo_id with
    | None => (Http404, [], table)
    | Some lo =>
        match outcome_checks all_courses request lo "delete" with
        | inl (response, messages) => (response, messages, table)
        | inr course =>
            match req_method request with
            | POST =>
                (Redirect "edupace_app:teacher_course_detail" (Some (course_pk course)),
                 [(msg_success, "Learning outcome deleted successfully.")],
                 filter (fun o => negb (Nat.eqb (lo_pk o) (lo_pk lo))) table)
            | GET =>
                (Render "edupace_app/teacher/delete_learning_outcome.html", [], table)
            end
        end
    end.

End SessionViews.

(** Sample data for the views above. *)
Module Campus.

Definition request_of (u : User) (m : Method) : @Request WholeNumbers.host :=
  {| req_user := u; req_method := m; req_form := None |}.

Definition row_cs101 : CourseRow :=
  {| course_of := Sample.cs101; course_name := "Programming";
     course_description := EmptyString; course_credits := 5 |}.

Definition row_cs102 : CourseRow :=
  {| course_of := Sample.cs102_locked; course_name := "Algorithms";
     course_description := EmptyString; course_credits := 6 |}.

Definition unlock_form : CourseFormData :=
  {| form_code := "CS102"; form_name := "Algorithms";
     form_description := EmptyString; form_credits := 6; form_is_locked := false |}.

Definition lo1 : LearningOutcome :=
  {| lo_pk := 1; lo_course := 1; lo_code := "LO1";
     lo_description := "Write a loop"; lo_created_by := None |}.

Definition lo2_form : OutcomeFormData :=
  {| outcome_code := "LO2"; outcome_description := "Write a function" |}.

End Campus.

(** A row as the ingestion writes it for the call: of the course, semester
    and academic year of the call, of a student of the Student table, with a
    grade of the enumeration and the author of the call. *)
Definition written_by_call {host : Host} (students : list Student) (course : Course)
           (sem ay : string) (cb : option Account) (g : Grade) : Prop :=
  In (grade_student g) students /\
  grade_course g = course /\
  semester g = sem /\
  academic_year g = ay /\
  PyStr.mem (grade g) valid_grades = true /\
  created_by g = cb.

(** The grade of a row of the table is one of [GRADE_CHOICES]. *)
Definition valid_grade {host : Host} (g : Grade) : Prop :=
  PyStr.mem (grade g) valid_grades = true.

(** The rows of [rs] that pass the three checks of the loop body and that
    the store accepts have a Grade in [t]. *)
Definition covered_rows {host : Host} (students : list Student) (course : Course)
           (sem ay : string) (cols : list string) (sid_col g_col : string)
           (pcol : option string) (rs : list (list Cell)) (t : list Grade) : Prop :=
  forall row pct s,
    In row rs ->
    row_percentage cols pcol row = Ok pct ->
    percentage_error pct = None ->
    Student_objects_get students (PyStr.strip (py_str (getitem cols row sid_col)))
    = Found s ->
    PyStr.mem (PyStr.upper (PyStr.strip (py_str (getitem cols row g_col)))) valid_grades
    = true ->
    filter (same_key s course sem ay) t <> [].

(** The success flag of what [process_excel_grades] returns. *)
Definition success_of {host : Host} (r : Returned) : bool :=
  match r with
  | Tuple2 ok _ => ok
  | Tuple3 ok _ _ => ok
  end.

(* ================================================================== *)
(** * The string functions on examples *)

Example strip_example : PyStr.strip "  Student ID " = "Student ID".
Proof. reflexivity. Qed.

Example upper_example : PyStr.upper (PyStr.strip " b+ ") = "B+".
Proof. reflexivity. Qed.

Example contains_example :
  PyStr.contains "id" "student id" = true /\ PyStr.contains "grade" "student id" = false.
Proof. split; reflexivity. Qed.

Example str_of_nat_example : PyStr.str_of_nat (10 + 2) = "12".
Proof. reflexivity. Qed.

Example normalize_columns_example :
  normalize_columns [" Student ID"; "GRADE "; "Percent (%)"]
  = ["student id"; "grade"; "percent (%)"].
Proof. reflexivity. Qed.

Example map_columns_example :
  map_columns ["student id"; "grade"; "percent (%)"]
  = {| student_id_col := Some "student id";
       grade_col := Some "grade";
       percentage_col := Some "percent (%)" |}.
Proof. reflexivity. Qed.

(* ================================================================== *)
(** * Roles and permissions *)

(** C7. The role resolver returns one of the three roles or [None]; an
    unauthenticated principal resolves to [None]; for an authenticated one
    the Teacher profile is looked at first, then the Student profile, then
    the AcademicBoard profile, and the first that exists decides. *)
Theorem get_user_role_first_match (user : User) :
  (get_user_role user = None \/ get_user_role user = Some student \/
   get_user_role user = Some teacher \/ get_user_role user = Some academic_board) /\
  (is_authenticated user = false -> get_user_role user = None) /\
  (is_authenticated user = true ->
   (forall t, teacher_profile user = Some t -> get_user_role user = Some teacher) /\
   (forall s, teacher_profile user = None -> student_profile user = Some s ->
              get_user_role user = Some student) /\
   (forall b, teacher_profile user = None -> student_profile user = None ->
              academic_board_profile user = Some b ->
              get_user_role user = Some academic_board) /\
   (teacher_profile user = None -> student_profile user = None ->
    academic_board_profile user = None -> get_user_role user = None)).
Proof.
  unfold get_user_role, hasattr_teacher_profile, hasattr_student_profile,
    hasattr_academic_board_profile.
  destruct (is_authenticated user); simpl.
  - destruct (teacher_profile user), (student_profile user),
      (academic_board_profile user); simpl;
      (split; [tauto | split; [discriminate | intros _; repeat split; intros; congruence]]).
  - split; [tauto | split; [reflexivity | discriminate]].
Qed.

Lemma get_user_role_first_match_witness :
  get_user_role Sample.anonymous = None /\
  get_user_role Sample.teacher_user = Some teacher.
Proof.
  split.
  - exact (proj1 (proj2 (get_user_role_first_match Sample.anonymous)) eq_refl).
  - exact (proj1 (proj2 (proj2 (get_user_role_first_match Sample.teacher_user)) eq_refl)
             Sample.prof eq_refl).
Defined.

(** C1. On a locked course each of the three mutating permission predicates
    answers [false], whoever asks. *)
Theorem locked_course_denies_mutation (user : User) (course : Course) :
  is_locked course = true ->
  check_course_edit_permission user course = false /\
  check_learning_outcome_permission user course = false /\
  check_grade_permission user course = false.
Proof.
  intros Hlocked.
  unfold check_grade_permission, check_course_edit_permission,
    check_learning_outcome_permission.
  rewrite Hlocked; simpl.
  repeat split.
  - destruct (role_is (get_user_role user) academic_board); reflexivity.
  - destruct (role_is (get_user_role user) teacher); simpl; [|reflexivity].
    destruct (teacher_profile user) as [t|]; [|reflexivity].
    destruct (course_in course (courses t)); reflexivity.
  - destruct (role_is (get_user_role user) teacher); simpl; [|reflexivity].
    destruct (teacher_profile user) as [t|]; [|reflexivity].
    destruct (course_in course (courses t)); reflexivity.
Qed.

Lemma locked_course_denies_mutation_witness :
  is_locked Sample.cs102_locked = true /\
  check_course_edit_permission Sample.board_user Sample.cs102_locked = false /\
  check_learning_outcome_permission Sample.teacher_user Sample.cs102_locked = false /\
  check_grade_permission Sample.teacher_user Sample.cs102_locked = false.
Proof.
  split; [reflexivity|].
  split; [|split].
  - exact (proj1 (locked_course_denies_mutation Sample.board_user Sample.cs102_locked eq_refl)).
  - exact (proj1 (proj2 (locked_course_denies_mutation Sample.teacher_user
                           Sample.cs102_locked eq_refl))).
  - exact (proj2 (proj2 (locked_course_denies_mutation Sample.teacher_user
                           Sample.cs102_locked eq_refl))).
Defined.

(* ================================================================== *)
(** * The header loop *)

Section HeaderLoop.

Context {host : Host}.

Lemma category_eqb_eq (c1 c2 : Category) : category_eqb c1 c2 = true <-> c1 = c2.
Proof. destruct c1, c2; simpl; split; congruence. Qed.

Lemma column_category_truthy (col : string) (c : Category) :
  column_category col = Some c -> PyStr.truthy col = true.
Proof. destruct col; [discriminate | reflexivity]. Qed.

Lemma mapped_map_column_same (m : ColumnMap) (col : string) (c : Category) :
  column_category col = Some c -> mapped (map_column m col) c = Some col.
Proof.
  unfold column_category, map_column.
  destruct (PyStr.contains "student" col && PyStr.contains "id" col);
    [intros [= <-]; reflexivity|].
  destruct (PyStr.contains "grade" col); [intros [= <-]; reflexivity|].
  destruct (PyStr.contains "percentage" col || PyStr.contains "percent" col);
    [intros [= <-]; reflexivity | discriminate].
Qed.

Lemma mapped_map_column_other (m : ColumnMap) (col : string) (c : Category) :
  column_category col <> Some c -> mapped (map_column m col) c = mapped m c.
Proof.
  unfold column_category, map_column.
  destruct (PyStr.contains "student" col && PyStr.contains "id" col);
    [destruct c; simpl; congruence|].
  destruct (PyStr.contains "grade" col); [destruct c; simpl; congruence|].
  destruct (PyStr.contains "percentage" col || PyStr.contains "percent" col);
    [destruct c; simpl; congruence | reflexivity].
Qed.

Lemma mapped_fold_no_match (cols : list string) (c : Category) :
  Forall (fun x => column_category x <> Some c) cols ->
  forall m, mapped (fold_left map_column cols m) c = mapped m c.
Proof.
  induction 1 as [|col cols Hcol _ IH]; intros m; simpl; [reflexivity|].
  rewrite IH. now apply mapped_map_column_other.
Qed.

Lemma has_category_cons (col : string) (cols : list string) (c : Category) :
  has_category (col :: cols) c
  = match column_category col with
    | Some c' => category_eqb c' c
    | None => false
    end || has_category cols c.
Proof. reflexivity. Qed.

Lemma col_truthy_fold (cols : list string) (c : Category) :
  forall m,
    col_truthy (mapped (fold_left map_column cols m) c)
    = has_category cols c || col_truthy (mapped m c).
Proof.
  induction cols as [|col cols IH]; intros m; [reflexivity|].
  rewrite has_category_cons. cbn [fold_left].
  rewrite IH.
  destruct (column_category col) as [c'|] eqn:Hcat.
  - destruct (category_eqb c' c) eqn:Heq.
    + apply category_eqb_eq in Heq; subst c'.
      rewrite (mapped_map_column_same m _ _ Hcat); simpl.
      rewrite (column_category_truthy _ _ Hcat).
      now rewrite !orb_true_r.
    + rewrite mapped_map_column_other; [reflexivity|].
      rewrite Hcat. intros [= ->]. destruct c; discriminate.
  - rewrite mapped_map_column_other; [reflexivity | congruence].
Qed.

Lemma col_truthy_map_columns (cols : list string) (c : Category) :
  col_truthy (mapped (map_columns cols) c) = has_category cols c.
Proof.
  unfold map_columns. rewrite col_truthy_fold.
  destruct c; simpl; apply orb_false_r.
Qed.

(** The test [not student_id_col or not grade_col] of the source. *)
Lemma missing_test (df : DataFrame) :
  negb (col_truthy (student_id_col (map_columns (normalize_columns (columns df)))))
  || negb (col_truthy (grade_col (map_columns (normalize_columns (columns df)))))
  = required_columns_missing df.
Proof.
  unfold required_columns_missing.
  now rewrite <- !col_truthy_map_columns.
Qed.

(** C10. When several labels of the header take the same branch of the
    header loop, the variable of that branch ends up holding the last of
    them in header order. *)
Theorem last_matching_column_selected
        (pre post : list string) (col : string) (c : Category) :
  column_category col = Some c ->
  Forall (fun x => column_category x <> Some c) post ->
  mapped (map_columns (pre ++ col :: post)) c = Some col.
Proof.
  intros Hcol Hpost.
  unfold map_columns.
  rewrite fold_left_app; simpl.
  rewrite mapped_fold_no_match by assumption.
  now apply mapped_map_column_same.
Qed.

End HeaderLoop.

Lemma last_matching_column_selected_witness :
  grade_col (map_columns ["student id"; "grade"; "final grade"; "percent"])
  = Some "final grade".
Proof.
  apply (last_matching_column_selected ["student id"; "grade"] ["percent"]
           "final grade" GradeColumn).
  - reflexivity.
  - repeat constructor; discriminate.
Defined.

(* ================================================================== *)
(** * The shape of what the ingestion returns *)

Section Shape.

Context {host : Host}.

Lemma process_excel_grades_missing
      (students : list Student) (grades : list Grade) (df : DataFrame)
      (course : Course) (sem ay : string) (cb : option Account) :
  required_columns_missing df = true ->
  process_excel_grades students grades (Ok df) course sem ay cb
  = (Tuple2 false columns_message, grades).
Proof.
  intros Hmiss. unfold process_excel_grades.
  cbv zeta. rewrite missing_test, Hmiss. reflexivity.
Qed.

Lemma process_excel_grades_present
      (students : list Student) (grades : list Grade) (df : DataFrame)
      (course : Course) (sem ay : string) (cb : option Account) :
  required_columns_missing df = false ->
  exists st,
    st = process_rows students course sem ay cb (normalize_columns (columns df))
           (label (student_id_col (map_columns (normalize_columns (columns df)))))
           (label (grade_col (map_columns (normalize_columns (columns df)))))
           (percentage_col (map_columns (normalize_columns (columns df))))
           0 (rows df)
           {| table := grades; grades_created := 0; errors := [] |} /\
    process_excel_grades students grades (Ok df) course sem ay cb
    = (Tuple3 true (summary_message (grades_created st) (errors st)) (errors st),
       table st).
Proof.
  intros Hmiss. eexists; split; [reflexivity|].
  unfold process_excel_grades.
  cbv zeta. rewrite missing_test, Hmiss. reflexivity.
Qed.

Lemma no_student_id_label (cols : list string) :
  Forall (fun h => PyStr.contains "student" h && PyStr.contains "id" h = false) cols ->
  has_category cols StudentIdColumn = false.
Proof.
  induction 1 as [|h cols Hh _ IH]; [reflexivity|].
  rewrite has_category_cons, IH. unfold column_category. rewrite Hh.
  destruct (PyStr.contains "grade" h); [reflexivity|].
  destruct (PyStr.contains "percentage" h || PyStr.contains "percent" h); reflexivity.
Qed.

Lemma no_grade_label (cols : list string) :
  Forall (fun h => PyStr.contains "grade" h = false) cols ->
  has_category cols GradeColumn = false.
Proof.
  induction 1 as [|h cols Hh _ IH]; [reflexivity|].
  rewrite has_category_cons, IH. unfold column_category. rewrite Hh.
  destruct (PyStr.contains "student" h && PyStr.contains "id" h); [reflexivity|].
  destruct (PyStr.contains "percentage" h || PyStr.contains "percent" h); reflexivity.
Qed.

(** C2. When no normalized label of the header contains both "student"
    and "id", or none contains "grade", the ingestion returns at once the
    failure with its message about the two columns: no row is looked at,
    no row error is produced and the Grade table is left as it was. *)
Theorem missing_required_column_aborts
        (students : list Student) (grades : list Grade) (df : DataFrame)
        (course : Course) (sem ay : string) (cb : option Account) :
  Forall (fun h => PyStr.contains "student" h && PyStr.contains "id" h = false)
         (normalize_columns (columns df))
  \/ Forall (fun h => PyStr.contains "grade" h = false)
            (normalize_columns (columns df)) ->
  process_excel_grades students grades (Ok df) course sem ay cb
  = (Tuple2 false "Excel file must contain 'Student ID' and 'Grade' columns", grades).
Proof.
  intros Hmissing.
  apply process_excel_grades_missing.
  unfold required_columns_missing; cbv zeta.
  destruct Hmissing as [H|H].
  - now rewrite (no_student_id_label _ H).
  - rewrite (no_grade_label _ H). apply orb_true_r.
Qed.

(** C9. The ingestion returns a pair [(False, message)] when a required
    column is missing and a triple on every other path; [upload_grades],
    which unpacks three values, lets an unpacking error escape on that
    path and on no other, and queues no message there. *)
Theorem pair_returned_only_when_column_missing :
  (forall students grades (excel : Result DataFrame) course sem ay cb,
      match excel with
      | Ok df =>
          if required_columns_missing df then
            fst (process_excel_grades students grades excel course sem ay cb)
            = Tuple2 false columns_message
          else
            exists message errs,
              fst (process_excel_grades students grades excel course sem ay cb)
              = Tuple3 true message errs
      | Raise e =>
          fst (process_excel_grades students grades excel course sem ay cb)
          = Tuple3 false ("Error processing Excel file: " ++ e) []
      end) /\
  (forall all_courses students grades (request : Request) course_id,
      (exists e,
          fst (fst (upload_grades all_courses students grades request course_id))
          = Unhandled e)
      <->
      (exists course form df,
          is_authenticated (req_user request) = true /\
          get_user_role (req_user request) = Some teacher /\
          get_object_or_404 all_courses course_id = Some course /\
          check_grade_permission (req_user request) course = true /\
          req_method request = POST /\
          req_form request = Some form /\
          excel_file form = Ok df /\
          required_columns_missing df = true)) /\
  (forall all_courses students grades (request : Request) course_id e,
      fst (fst (upload_grades all_courses students grades request course_id))
      = Unhandled e ->
      upload_grades all_courses students grades request course_id
      = (Unhandled "ValueError: not enough values to unpack (expected 3, got 2)",
         [], grades)).
Proof.
  assert (Hshape :
    forall students grades (excel : Result DataFrame) course sem ay cb g' ok msg,
      process_excel_grades students grades excel course sem ay cb = (Tuple2 ok msg, g') ->
      g' = grades /\
      exists df, excel = Ok df /\ required_columns_missing df = true).
  { intros students grades [df|e] course sem ay cb g' ok msg Hp.
    - destruct (required_columns_missing df) eqn:Hmiss.
      + rewrite (process_excel_grades_missing _ _ _ _ _ _ _ Hmiss) in Hp.
        injection Hp as _ _ <-. split; [reflexivity | eauto].
      + destruct (process_excel_grades_present students grades df course sem ay cb Hmiss)
          as (st & _ & Hst).
        rewrite Hst in Hp. discriminate.
    - discriminate. }
  split; [|split].
  - intros students grades [df|e] course sem ay cb; [|reflexivity].
    destruct (required_columns_missing df) eqn:Hmiss.
    + rewrite (process_excel_grades_missing _ _ _ _ _ _ _ Hmiss). reflexivity.
    + destruct (process_excel_grades_present students grades df course sem ay cb Hmiss)
        as (st & _ & Hst).
      rewrite Hst. simpl. eauto.
  - intros all_courses students grades request course_id. split.
    + intros [e He]. revert He.
      unfold upload_grades, role_required.
      destruct (is_authenticated (req_user request)); [|discriminate].
      destruct (get_user_role (req_user request)) as [[| |]|]; try discriminate.
      cbn [negb existsb role_eqb orb].
      destruct (get_object_or_404 all_courses course_id) as [course|]; [|discriminate].
      destruct (check_grade_permission (req_user request) course) eqn:Hperm;
        [|discriminate].
      cbn [negb].
      destruct (req_method request); [discriminate|].
      destruct (req_form request) as [form|]; [|discriminate].
      destruct (process_excel_grades students grades (excel_file form) course
                  (form_semester form) (form_academic_year form)
                  (Some (account (req_user request))))
        as [[ok msg|ok msg errs] g'] eqn:Hp; [|discriminate].
      intros _.
      destruct (Hshape _ _ _ _ _ _ _ _ _ _ Hp) as (_ & df & Hdf & Hmiss).
      exists course, form, df. repeat split; assumption.
    + intros (course & form & df & Hauth & Hrole & Hcourse & Hperm & Hmeth & Hform
                & Hdf & Hmiss).
      unfold upload_grades, role_required.
      rewrite Hauth, Hrole, Hcourse, Hperm, Hmeth, Hform, Hdf.
      cbn [negb existsb role_eqb orb].
      rewrite (process_excel_grades_missing _ _ _ _ _ _ _ Hmiss).
      simpl. eauto.
  - intros all_courses students grades request course_id e.
    unfold upload_grades, role_required.
    destruct (is_authenticated (req_user request)); [|discriminate].
    destruct (get_user_role (req_user request)) as [[| |]|]; try discriminate.
    cbn [negb existsb role_eqb orb].
    destruct (get_object_or_404 all_courses course_id) as [course|]; [|discriminate].
    destruct (check_grade_permission (req_user request) course); [|discriminate].
    cbn [negb].
    destruct (req_method request); [discriminate|].
    destruct (req_form request) as [form|]; [|discriminate].
    destruct (process_excel_grades students grades (excel_file form) course
                (form_semester form) (form_academic_year form)
                (Some (account (req_user request))))
      as [[ok msg|ok msg errs] g'] eqn:Hp; [|discriminate].
    intros _.
    destruct (Hshape _ _ _ _ _ _ _ _ _ _ Hp) as (-> & _). reflexivity.
Qed.

End Shape.

Lemma missing_required_column_aborts_witness :
  process_excel_grades (host := WholeNumbers.host) Sample.students []
    (Ok Sample.frame_without_grade) Sample.cs101 "Fall 2024" "2024-2025" None
  = (Tuple2 false "Excel file must contain 'Student ID' and 'Grade' columns", []).
Proof.
  apply (@missing_required_column_aborts WholeNumbers.host).
  right. repeat constructor.
Defined.

Lemma pair_returned_only_when_column_missing_witness :
  upload_grades (host := WholeNumbers.host) [Sample.cs101] Sample.students []
    (Sample.prof_request POST (Some (Sample.form_of Sample.frame_without_grade))) 1
  = (Unhandled "ValueError: not enough values to unpack (expected 3, got 2)", [], []).
Proof.
  apply (proj2 (proj2 (@pair_returned_only_when_column_missing WholeNumbers.host))
           _ _ _ _ _ "ValueError: not enough values to unpack (expected 3, got 2)").
  reflexivity.
Defined.

(* ================================================================== *)
(** * The row loop *)

(** The three outcomes of the upsert: an exception, with nothing written;
    a row added at the end; the row that has the key rewritten in place. *)
Lemma update_or_create_cases {host : Host} (table : list Grade)
      (st : Student) (c : Course) (sem ay gv : string)
      (pct : option number) (cb : option Account) :
  (exists msg, update_or_create table st c sem ay gv pct cb = Raise msg)
  \/ (filter (same_key st c sem ay) table = [] /\
      percentage_error pct = None /\
      update_or_create table st c sem ay gv pct cb
      = Ok ((table ++ [ {| grade_student := st; grade_course := c; grade := gv;
                           percentage := pct; semester := sem;
                           academic_year := ay; created_by := cb |} ])%list, true))
  \/ (exists g,
        filter (same_key st c sem ay) table = [g] /\
        percentage_error pct = None /\
        update_or_create table st c sem ay gv pct cb
        = Ok (map (write st c sem ay gv pct cb) table, false)).
Proof.
  unfold update_or_create.
  destruct (filter (same_key st c sem ay) table) as [|g [|g' gs]].
  - destruct (percentage_error pct) as [msg|]; [left; eauto | right; left; auto].
  - destruct (percentage_error pct) as [msg|]; [left; eauto | right; right; eauto].
  - left; eauto.
Qed.

Section RowLoop.

Context {host : Host}.

Variables (students : list Student) (course : Course) (sem ay : string)
          (cb : option Account) (cols : list string) (sid_col g_col : string)
          (pcol : option string).

Local Abbreviation step := (process_row students course sem ay cb cols sid_col g_col pcol).
Local Abbreviation loop := (process_rows students course sem ay cb cols sid_col g_col pcol).

Lemma process_rows_app (rs1 rs2 : list (list Cell)) :
  forall index st,
    loop index (rs1 ++ rs2) st = loop (index + List.length rs1) rs2 (loop index rs1 st).
Proof.
  induction rs1 as [|row rs1 IH]; intros index st; simpl.
  - now rewrite Nat.add_0_r.
  - rewrite IH. now rewrite Nat.add_succ_r.
Qed.

(** The branches of the loop body, in the order the body takes them. *)
Lemma process_row_float_raises (index : nat) (row : list Cell) (st : LoopState)
      (msg : string) :
  row_percentage cols pcol row = Raise msg ->
  step index row st = row_exception st index msg.
Proof. intros H. unfold process_row. now rewrite H. Qed.

Lemma process_row_not_found (index : nat) (row : list Cell) (st : LoopState)
      (pct : option number) :
  row_percentage cols pcol row = Ok pct ->
  Student_objects_get students (PyStr.strip (py_str (getitem cols row sid_col)))
  = DoesNotExist ->
  step index row st
  = errors_append st
      ("Student with ID " ++ PyStr.strip (py_str (getitem cols row sid_col))
         ++ " not found (row " ++ PyStr.str_of_nat (index + 2) ++ ")").
Proof. intros H1 H2. unfold process_row. now rewrite H1, H2. Qed.

Lemma process_row_invalid_grade (index : nat) (row : list Cell) (st : LoopState)
      (pct : option number) (s : Student) :
  row_percentage cols pcol row = Ok pct ->
  Student_objects_get students (PyStr.strip (py_str (getitem cols row sid_col)))
  = Found s ->
  PyStr.mem (PyStr.upper (PyStr.strip (py_str (getitem cols row g_col)))) valid_grades
  = false ->
  step index row st
  = errors_append st
      ("Invalid grade '"
         ++ PyStr.upper (PyStr.strip (py_str (getitem cols row g_col)))
         ++ "' for student " ++ PyStr.strip (py_str (getitem cols row sid_col))
         ++ " (row " ++ PyStr.str_of_nat (index + 2) ++ ")").
Proof. intros H1 H2 H3. unfold process_row. now rewrite H1, H2, H3. Qed.

Lemma process_row_upsert (index : nat) (row : list Cell) (st : LoopState)
      (pct : option number) (s : Student) (table' : list Grade) (created : bool) :
  row_percentage cols pcol row = Ok pct ->
  Student_objects_get students (PyStr.strip (py_str (getitem cols row sid_col)))
  = Found s ->
  PyStr.mem (PyStr.upper (PyStr.strip (py_str (getitem cols row g_col)))) valid_grades
  = true ->
  update_or_create (table st) s course sem ay
    (PyStr.upper (PyStr.strip (py_str (getitem cols row g_col)))) pct cb
  = Ok (table', created) ->
  step index row st
  = {| table := table';
       grades_created := if created then grades_created st + 1 else grades_created st;
       errors := errors st |}.
Proof. intros H1 H2 H3 H4. unfold process_row. now rewrite H1, H2, H3, H4. Qed.

(** The percentage of a row, read off its cell. *)
Lemma row_percentage_of_cell (row : list Cell) (pct : option number) :
  match pcol with
  | Some pc =>
      if PyStr.truthy pc && notna (getitem cols row pc)
      then exists x, py_float (getitem cols row pc) = Ok x /\ pct = Some x
      else pct = None
  | None => pct = None
  end ->
  row_percentage cols pcol row = Ok pct.
Proof.
  unfold row_percentage. destruct pcol as [pc|]; [|now intros ->].
  destruct (PyStr.truthy pc && notna (getitem cols row pc)); [|now intros ->].
  intros (x & -> & ->). reflexivity.
Qed.

(** What one row does: it records one error that carries its row number
    and changes nothing else, or it creates a record and counts it, or it
    updates records in place. *)
Lemma process_row_cases (index : nat) (row : list Cell) (st : LoopState) :
  (table (step index row st) = table st /\
   grades_created (step index row st) = grades_created st /\
   exists e, errors (step index row st) = (errors st ++ [e])%list /\
             cites_row e (index + 2))
  \/ (errors (step index row st) = errors st /\
      grades_created (step index row st) = grades_created st + 1 /\
      List.length (table (step index row st)) = List.length (table st) + 1)
  \/ (errors (step index row st) = errors st /\
      grades_created (step index row st) = grades_created st /\
      List.length (table (step index row st)) = List.length (table st)).
Proof.
  unfold process_row.
  destruct (row_percentage cols pcol row) as [pct|msg].
  2:{ left. repeat split. eexists; split; [reflexivity | constructor]. }
  destruct (Student_objects_get students _) as [s| |].
  2:{ left. repeat split. eexists; split; [reflexivity | constructor]. }
  2:{ left. repeat split. eexists; split; [reflexivity | constructor]. }
  destruct (negb (PyStr.mem _ valid_grades)).
  { left. repeat split. eexists; split; [reflexivity | constructor]. }
  destruct (update_or_create_cases (table st) s course sem ay
              (PyStr.upper (PyStr.strip (py_str (getitem cols row g_col)))) pct cb)
    as [[msg ->] | [(_ & _ & ->) | (g & _ & _ & ->)]].
  - left. repeat split. eexists; split; [reflexivity | constructor].
  - right; left. simpl. repeat split. rewrite length_app. reflexivity.
  - right; right. simpl. repeat split. apply length_map.
Qed.

(** The loop: the errors it adds are those of its rows, in row order and
    at most one per row, each with the number of its row; the counter
    grows by the number of records the table gains. *)
Lemma process_rows_errors (rs : list (list Cell)) :
  forall index st,
    (exists per_row : list (list string),
        List.length per_row = List.length rs /\
        errors (loop index rs st) = (errors st ++ List.concat per_row)%list /\
        forall i l, nth_error per_row i = Some l ->
                    l = [] \/ exists e, l = [e] /\ cites_row e (index + i + 2)) /\
    List.length (table (loop index rs st)) + grades_created st
    = List.length (table st) + grades_created (loop index rs st).
Proof.
  induction rs as [|row rs IH]; intros index st; simpl.
  - split; [|reflexivity].
    exists []. simpl. rewrite app_nil_r. repeat split.
    intros [|i] l; discriminate.
  - destruct (IH (S index) (step index row st)) as ((per_row & Hlen & Herr & Hcite) & Hcount).
    destruct (process_row_cases index row st)
      as [(Ht & Hc & e & He & Hcites) | [(He & Hc & Ht) | (He & Hc & Ht)]].
    + split; [|rewrite Ht, Hc in Hcount; exact Hcount].
      exists ([e] :: per_row). simpl. repeat split.
      * now rewrite Hlen.
      * rewrite Herr, He, <- app_assoc. reflexivity.
      * intros [|i] l Hl; simpl in Hl.
        -- injection Hl as <-. right. exists e. split; [reflexivity|].
           now rewrite Nat.add_0_r.
        -- destruct (Hcite i l Hl) as [->|(e' & -> & He')]; [now left|].
           right. exists e'. split; [reflexivity|].
           now replace (index + S i + 2) with (S index + i + 2) by lia.
    + split; [|rewrite Ht, Hc in Hcount; lia].
      exists ([] :: per_row). simpl. repeat split.
      * now rewrite Hlen.
      * now rewrite Herr, He.
      * intros [|i] l Hl; simpl in Hl.
        -- injection Hl as <-. now left.
        -- destruct (Hcite i l Hl) as [->|(e' & -> & He')]; [now left|].
           right. exists e'. split; [reflexivity|].
           now replace (index + S i + 2) with (S index + i + 2) by lia.
    + split; [|rewrite Ht, Hc in Hcount; lia].
      exists ([] :: per_row). simpl. repeat split.
      * now rewrite Hlen.
      * now rewrite Herr, He.
      * intros [|i] l Hl; simpl in Hl.
        -- injection Hl as <-. now left.
        -- destruct (Hcite i l Hl) as [->|(e' & -> & He')]; [now left|].
           right. exists e'. split; [reflexivity|].
           now replace (index + S i + 2) with (S index + i + 2) by lia.
Qed.

End RowLoop.

(* ================================================================== *)
(** * The result of the ingestion *)

Section IngestResult.

Context {host : Host}.

Lemma student_id_grade_columns :
  map_columns (normalize_columns ["Student ID"; "Grade"])
  = {| student_id_col := Some "student id";
       grade_col := Some "grade";
       percentage_col := None |}.
Proof. reflexivity. Qed.

(** C3, as the code has it.  With both required columns present the
    ingestion returns [(True, message, errors)]: the message carries the
    number of records created, which is the number of records the table
    gains, and the number of errors; the errors are those of the rows, in
    row order, at most one per row, each with the number of its row in the
    sheet (index + 2).  No count of updated records is part of the result.
    For the rows STU001/A and STU999/B, with STU001 a student without a
    grade yet and STU999 unknown, one record is created and the one error
    is that of row 3, student not found. *)
Theorem ingest_returns_created_and_row_errors :
  (forall students grades (df : DataFrame) course sem ay cb,
      required_columns_missing df = false ->
      exists created errs table',
        process_excel_grades students grades (Ok df) course sem ay cb
        = (Tuple3 true (summary_message created errs) errs, table') /\
        List.length table' = List.length grades + created /\
        exists per_row : list (list string),
          List.length per_row = List.length (rows df) /\
          errs = List.concat per_row /\
          forall i l, nth_error per_row i = Some l ->
                      l = [] \/ exists e, l = [e] /\ cites_row e (i + 2)) /\
  (forall students grades course sem ay cb s,
      Student_objects_get students "STU001" = Found s ->
      Student_objects_get students "STU999" = DoesNotExist ->
      filter (same_key s course sem ay) grades = [] ->
      process_excel_grades students grades
        (Ok {| columns := ["Student ID"; "Grade"];
               rows := [[CStr "STU001"; CStr "A"]; [CStr "STU999"; CStr "B"]] |})
        course sem ay cb
      = (Tuple3 true
           "Successfully created/updated 1 grade(s). 1 error(s) occurred."
           ["Student with ID STU999 not found (row 3)"],
         (grades ++ [ {| grade_student := s; grade_course := course; grade := "A";
                         percentage := None; semester := sem;
                         academic_year := ay; created_by := cb |} ])%list)).
Proof.
  split.
  - intros students grades df course sem ay cb Hpresent.
    destruct (process_excel_grades_present students grades df course sem ay cb Hpresent)
      as (st & Hst & Hret).
    destruct (process_rows_errors students course sem ay cb
                (normalize_columns (columns df))
                (label (student_id_col (map_columns (normalize_columns (columns df)))))
                (label (grade_col (map_columns (normalize_columns (columns df)))))
                (percentage_col (map_columns (normalize_columns (columns df))))
                (rows df) 0
                {| table := grades; grades_created := 0; errors := [] |})
      as ((per_row & Hlen & Herr & Hcite) & Hcount).
    rewrite <- Hst in Herr, Hcount. simpl in Herr, Hcount.
    exists (grades_created st), (errors st), (table st).
    split; [exact Hret|]. split; [lia|].
    exists per_row. repeat split; assumption.
  - intros students grades course sem ay cb s Hs1 Hs999 Hkey.
    destruct (process_excel_grades_present students grades
                {| columns := ["Student ID"; "Grade"];
                   rows := [[CStr "STU001"; CStr "A"]; [CStr "STU999"; CStr "B"]] |}
                course sem ay cb eq_refl)
      as (st & Hst & ->).
    cbn [columns rows] in Hst. rewrite student_id_grade_columns in Hst.
    change (normalize_columns ["Student ID"; "Grade"]) with ["student id"; "grade"] in Hst.
    cbn [student_id_col grade_col percentage_col label process_rows] in Hst.
    rewrite (process_row_upsert students course sem ay cb ["student id"; "grade"]
               "student id" "grade" None 0 [CStr "STU001"; CStr "A"]
               {| table := grades; grades_created := 0; errors := [] |}
               None s
               (grades ++ [ {| grade_student := s; grade_course := course; grade := "A";
                               percentage := None; semester := sem;
                               academic_year := ay; created_by := cb |} ])%list true
               eq_refl Hs1 eq_refl) in Hst
      by (unfold update_or_create; cbn [table]; now rewrite Hkey).
    rewrite (process_row_not_found students course sem ay cb ["student id"; "grade"]
               "student id" "grade" None 1 [CStr "STU999"; CStr "B"] _ None
               eq_refl Hs999) in Hst.
    subst st. reflexivity.
Qed.

End IngestResult.

Lemma ingest_returns_created_and_row_errors_witness :
  exists created errs table',
    process_excel_grades (host := WholeNumbers.host) Sample.students [Sample.grade_b]
      (Ok Sample.frame_one_row) Sample.cs101 "Fall 2024" "2024-2025" None
    = (Tuple3 true (summary_message created errs) errs, table') /\
    List.length table' = 1 + created.
Proof.
  destruct (proj1 (@ingest_returns_created_and_row_errors WholeNumbers.host)
              Sample.students [Sample.grade_b] Sample.frame_one_row Sample.cs101
              "Fall 2024" "2024-2025" None eq_refl)
    as (created & errs & table' & Hret & Hlen & _).
  exists created, errs, table'. split; assumption.
Defined.

(** C3, the claim as written fails: the result does not hold the count of
    updated records.  An upload that updates the one grade of STU001 and an
    upload without rows return the same value. *)
Lemma updated_count_not_returned :
  fst (process_excel_grades (host := WholeNumbers.host) Sample.students [Sample.grade_b]
         (Ok Sample.frame_one_row) Sample.cs101 "Fall 2024" "2024-2025" None)
  = fst (process_excel_grades (host := WholeNumbers.host) Sample.students [Sample.grade_b]
           (Ok Sample.frame_no_rows) Sample.cs101 "Fall 2024" "2024-2025" None)
  /\ spec_updated (host := WholeNumbers.host) Sample.students [Sample.grade_b]
       Sample.frame_one_row Sample.cs101 "Fall 2024" "2024-2025" None = 1
  /\ spec_updated (host := WholeNumbers.host) Sample.students [Sample.grade_b]
       Sample.frame_no_rows Sample.cs101 "Fall 2024" "2024-2025" None = 0.
Proof. repeat split. Qed.

(* ================================================================== *)
(** * The Grade table under [update_or_create] *)

Section Upsert.

Context {host : Host}.

Lemma filter_map_commute {A : Type} (f : A -> bool) (h : A -> A) (l : list A) :
  (forall x, f (h x) = f x) ->
  filter f (map h l) = map h (filter f l).
Proof.
  intros Hf. induction l as [|x l IH]; simpl; [reflexivity|].
  rewrite Hf. destruct (f x); simpl; now rewrite IH.
Qed.

Lemma filter_map_fixed {A : Type} (f : A -> bool) (h : A -> A) (l : list A) :
  (forall x, f (h x) = f x) ->
  (forall x, f x = true -> h x = x) ->
  filter f (map h l) = filter f l.
Proof.
  intros Hf Hfix. induction l as [|x l IH]; simpl; [reflexivity|].
  rewrite Hf. destruct (f x) eqn:Hx; simpl; rewrite IH; [|reflexivity].
  now rewrite Hfix.
Qed.

Lemma same_key_spec (st : Student) (c : Course) (sem ay : string) (g : Grade) :
  same_key st c sem ay g = true <->
  student_pk (grade_student g) = student_pk st /\
  course_pk (grade_course g) = course_pk c /\
  semester g = sem /\ academic_year g = ay.
Proof.
  unfold same_key, course_eqb.
  rewrite !andb_true_iff, !Nat.eqb_eq, !String.eqb_eq. tauto.
Qed.

Lemma same_key_set_defaults (st : Student) (c : Course) (sem ay : string)
      (gv : string) (pct : option number) (cb : option Account) (g : Grade) :
  same_key st c sem ay (set_defaults gv pct cb g) = same_key st c sem ay g.
Proof. reflexivity. Qed.

Lemma same_key_write (st' : Student) (c' : Course) (sem' ay' : string)
      (st : Student) (c : Course) (sem ay : string)
      (gv : string) (pct : option number) (cb : option Account) (g : Grade) :
  same_key st' c' sem' ay' (write st c sem ay gv pct cb g) = same_key st' c' sem' ay' g.
Proof. unfold write. destruct (same_key st c sem ay g); reflexivity. Qed.

(** Two keys that a row both matches select the same rows. *)
Lemma same_key_trans (st' st : Student) (c' c : Course) (sem' ay' sem ay : string)
      (g : Grade) :
  same_key st' c' sem' ay' g = true ->
  same_key st c sem ay g = true ->
  forall g', same_key st' c' sem' ay' g' = same_key st c sem ay g'.
Proof.
  intros H1 H2 g'.
  apply same_key_spec in H1. apply same_key_spec in H2.
  destruct H1 as (Hs1 & Hc1 & Hm1 & Hy1), H2 as (Hs2 & Hc2 & Hm2 & Hy2).
  unfold same_key, course_eqb.
  replace (student_pk st') with (student_pk st) by congruence.
  replace (course_pk c') with (course_pk c) by congruence.
  replace sem' with sem by congruence.
  replace ay' with ay by congruence.
  reflexivity.
Qed.

Lemma same_key_new (st : Student) (c : Course) (sem ay : string)
      (gv : string) (pct : option number) (cb : option Account) :
  same_key st c sem ay
    {| grade_student := st; grade_course := c; grade := gv; percentage := pct;
       semester := sem; academic_year := ay; created_by := cb |} = true.
Proof. apply same_key_spec. simpl. tauto. Qed.

(** No row has the key: a row is created. *)
Lemma update_or_create_creates (table : list Grade) (st : Student) (c : Course)
      (sem ay gv : string) (pct : option number) (cb : option Account) :
  percentage_error pct = None ->
  filter (same_key st c sem ay) table = [] ->
  update_or_create table st c sem ay gv pct cb
  = Ok ((table ++ [ {| grade_student := st; grade_course := c; grade := gv;
                       percentage := pct; semester := sem;
                       academic_year := ay; created_by := cb |} ])%list, true).
Proof. intros Hp H. unfold update_or_create. now rewrite H, Hp. Qed.

(** One row has the key: it is rewritten in place. *)
Lemma update_or_create_updates (table : list Grade) (st : Student) (c : Course)
      (sem ay gv : string) (pct : option number) (cb : option Account) (g : Grade) :
  percentage_error pct = None ->
  filter (same_key st c sem ay) table = [g] ->
  update_or_create table st c sem ay gv pct cb
  = Ok (map (write st c sem ay gv pct cb) table, false).
Proof. intros Hp H. unfold update_or_create. now rewrite H, Hp. Qed.

(** The store refuses the percentage: the upsert raises. *)
Lemma update_or_create_refused (table : list Grade) (st : Student) (c : Course)
      (sem ay gv : string) (pct : option number) (cb : option Account) (msg : string) :
  unique_together table ->
  percentage_error pct = Some msg ->
  update_or_create table st c sem ay gv pct cb = Raise msg.
Proof.
  intros Huniq Hp. pose proof (Huniq st c sem ay) as Hle.
  unfold update_or_create.
  destruct (filter (same_key st c sem ay) table) as [|g [|g' gs]];
    [now rewrite Hp | now rewrite Hp | simpl in Hle; lia].
Qed.

(** An upsert writes nothing new to the constraint. *)
Lemma update_or_create_keeps_unique (table table' : list Grade) (st : Student)
      (c : Course) (sem ay gv : string) (pct : option number) (cb : option Account)
      (created : bool) :
  unique_together table ->
  update_or_create table st c sem ay gv pct cb = Ok (table', created) ->
  unique_together table'.
Proof.
  intros Huniq Hup.
  destruct (update_or_create_cases table st c sem ay gv pct cb)
    as [[msg H] | [(Hf & _ & H) | (g & Hf & _ & H)]]; rewrite H in Hup;
    [discriminate | | ]; injection Hup as <- <-.
  - intros st' c' sem' ay'. rewrite filter_app, length_app. simpl.
    destruct (same_key st' c' sem' ay' _) eqn:Hk; simpl.
    + rewrite (filter_ext _ _ (same_key_trans _ _ _ _ _ _ _ _ _ Hk
                                 (same_key_new st c sem ay gv pct cb))).
      rewrite Hf. simpl. lia.
    + pose proof (Huniq st' c' sem' ay'). lia.
  - intros st' c' sem' ay'.
    rewrite filter_map_commute by (intros; apply same_key_write).
    rewrite length_map. apply Huniq.
Qed.

(** On a table that satisfies the constraint the upsert of a percentage
    that the store accepts succeeds, leaves exactly one row with the key,
    holding the values given, and keeps the constraint. *)
Lemma update_or_create_unique (table : list Grade) (st : Student) (c : Course)
      (sem ay gv : string) (pct : option number) (cb : option Account) :
  unique_together table ->
  percentage_error pct = None ->
  exists table' created g,
    update_or_create table st c sem ay gv pct cb = Ok (table', created) /\
    created = match filter (same_key st c sem ay) table with
              | [] => true | _ => false end /\
    filter (same_key st c sem ay) table' = [g] /\
    grade g = gv /\ percentage g = pct /\ created_by g = cb /\
    unique_together table'.
Proof.
  intros Huniq Hp.
  pose proof (Huniq st c sem ay) as Hle.
  destruct (filter (same_key st c sem ay) table) as [|g [|g' gs]] eqn:Hf.
  - eexists _, true, _. split; [now apply update_or_create_creates|].
    split; [reflexivity|].
    split; [rewrite filter_app, Hf; simpl; rewrite same_key_new; reflexivity|].
    repeat split.
    intros st' c' sem' ay'. rewrite filter_app, length_app. simpl.
    destruct (same_key st' c' sem' ay' _) eqn:Hk; simpl.
    + rewrite (filter_ext _ _ (same_key_trans _ _ _ _ _ _ _ _ _ Hk
                                 (same_key_new st c sem ay gv pct cb))).
      rewrite Hf. simpl. lia.
    + pose proof (Huniq st' c' sem' ay'). lia.
  - exists (map (write st c sem ay gv pct cb) table), false, (set_defaults gv pct cb g).
    split; [now apply (update_or_create_updates _ _ _ _ _ _ _ _ g)|].
    split; [reflexivity|].
    split.
    { rewrite filter_map_commute by (intros; apply same_key_write).
      rewrite Hf. simpl. unfold write.
      assert (Hg : same_key st c sem ay g = true).
      { assert (Hin : In g (filter (same_key st c sem ay) table))
          by (rewrite Hf; now left).
        now apply filter_In in Hin. }
      now rewrite Hg. }
    repeat split.
    intros st' c' sem' ay'.
    rewrite filter_map_commute by (intros; apply same_key_write).
    rewrite length_map. apply Huniq.
  - simpl in Hle. lia.
Qed.

End Upsert.

(* ================================================================== *)
(** * Rows of one upload that name the same student *)

Section LaterRowWins.

Context {host : Host}.

Variables (students : list Student) (course : Course) (sem ay : string)
          (cb : option Account) (cols : list string) (sid_col g_col : string)
          (pcol : option string).

Local Abbreviation step := (process_row students course sem ay cb cols sid_col g_col pcol).
Local Abbreviation loop := (process_rows students course sem ay cb cols sid_col g_col pcol).
Local Abbreviation sid_of := (fun row => PyStr.strip (py_str (getitem cols row sid_col))).
Local Abbreviation grade_of :=
  (fun row => PyStr.upper (PyStr.strip (py_str (getitem cols row g_col)))).

Lemma Student_objects_get_found (sid : string) (s : Student) :
  Student_objects_get students sid = Found s ->
  In s students /\ student_id s = sid.
Proof.
  unfold Student_objects_get.
  destruct (filter _ students) as [|x [|y l]] eqn:Hf; try discriminate.
  intros [= <-].
  assert (Hin : In x (filter (fun s => String.eqb (student_id s) sid) students))
    by (rewrite Hf; now left).
  apply filter_In in Hin. destruct Hin as [Hin Heq].
  now apply String.eqb_eq in Heq.
Qed.

Lemma NoDup_map_injective {A B : Type} (f : A -> B) (l : list A) (x y : A) :
  NoDup (map f l) -> In x l -> In y l -> f x = f y -> x = y.
Proof.
  induction l as [|a l IH]; simpl; [tauto|].
  intros Hnd [->|Hx] [->|Hy] Hxy; inversion Hnd as [|? ? Hnotin Hnd']; subst.
  - reflexivity.
  - exfalso. apply Hnotin. rewrite Hxy. now apply in_map.
  - exfalso. apply Hnotin. rewrite <- Hxy. now apply in_map.
  - now apply IH.
Qed.

Lemma step_unique (index : nat) (row : list Cell) (st : LoopState) :
  unique_together (table st) -> unique_together (table (step index row st)).
Proof.
  intros Huniq. unfold process_row.
  destruct (row_percentage cols pcol row) as [pct|msg]; [|exact Huniq].
  destruct (Student_objects_get students _) as [s| |]; try exact Huniq.
  destruct (negb (PyStr.mem _ valid_grades)); [exact Huniq|].
  destruct (update_or_create (table st) s course sem ay (grade_of row) pct cb)
    as [[table' created]|msg] eqn:Hup; [|exact Huniq].
  cbn [table]. eapply update_or_create_keeps_unique; eauto.
Qed.

Lemma loop_unique (rs : list (list Cell)) :
  forall index st,
    unique_together (table st) -> unique_together (table (loop index rs st)).
Proof.
  induction rs as [|row rs IH]; intros index st Huniq; simpl; [exact Huniq|].
  apply IH. now apply step_unique.
Qed.

(** A row that passes the three checks, on a table that satisfies the
    constraint: no error, and one row of the table with the key, holding
    the values of the row. *)
Lemma step_upserts (index : nat) (row : list Cell) (st : LoopState)
      (pct : option number) (s : Student) :
  unique_together (table st) ->
  row_percentage cols pcol row = Ok pct ->
  percentage_error pct = None ->
  Student_objects_get students (sid_of row) = Found s ->
  PyStr.mem (grade_of row) valid_grades = true ->
  errors (step index row st) = errors st /\
  exists g,
    filter (same_key s course sem ay) (table (step index row st)) = [g] /\
    grade g = grade_of row /\ percentage g = pct /\ created_by g = cb.
Proof.
  intros Huniq Hpct Haccept Hget Hvalid.
  destruct (update_or_create_unique (table st) s course sem ay (grade_of row) pct cb
              Huniq Haccept)
    as (table' & created & g & Hup & _ & Hf & Hg & Hp & Hc & _).
  rewrite (process_row_upsert students course sem ay cb cols sid_col g_col pcol
             index row st pct s table' created Hpct Hget Hvalid Hup).
  simpl. split; [reflexivity|]. exists g. auto.
Qed.

(** A row that names another student leaves the rows of [s] as they are. *)
Lemma step_other_student (index : nat) (row : list Cell) (st : LoopState)
      (s : Student) :
  NoDup (map student_pk students) ->
  In s students ->
  sid_of row <> student_id s ->
  filter (same_key s course sem ay) (table (step index row st))
  = filter (same_key s course sem ay) (table st).
Proof.
  intros Hnd Hin Hsid. unfold process_row.
  destruct (row_percentage cols pcol row) as [pct|msg]; [|reflexivity].
  destruct (Student_objects_get students _) as [s'| |] eqn:Hget; try reflexivity.
  destruct (negb (PyStr.mem _ valid_grades)); [reflexivity|].
  apply Student_objects_get_found in Hget. destruct Hget as [Hin' Hsid'].
  assert (Hpk : Nat.eqb (student_pk s') (student_pk s) = false).
  { apply Nat.eqb_neq. intros Heq.
    apply Hsid. rewrite <- Hsid'.
    now rewrite (NoDup_map_injective student_pk students s' s Hnd Hin' Hin Heq). }
  destruct (update_or_create_cases (table st) s' course sem ay (grade_of row) pct cb)
    as [[msg ->] | [(_ & _ & ->) | (g & _ & _ & ->)]]; [reflexivity | | ].
  - cbn [table]. rewrite filter_app. cbn [filter].
    unfold same_key at 2. cbn [grade_student]. rewrite Hpk. cbn [andb].
    apply app_nil_r.
  - cbn [table]. apply filter_map_fixed.
    + intros x. apply same_key_write.
    + intros x Hx. unfold write.
      destruct (same_key s' course sem ay x) eqn:Hx'; [|reflexivity].
      apply same_key_spec in Hx, Hx'.
      destruct Hx as (Hx & _), Hx' as (Hx' & _).
      apply Nat.eqb_neq in Hpk. congruence.
Qed.

Lemma loop_other_students (rs : list (list Cell)) (s : Student) :
  NoDup (map student_pk students) ->
  In s students ->
  Forall (fun row => sid_of row <> student_id s) rs ->
  forall index st,
    filter (same_key s course sem ay) (table (loop index rs st))
    = filter (same_key s course sem ay) (table st).
Proof.
  intros Hnd Hin Hrs. induction Hrs as [|row rs Hrow _ IH]; intros index st; simpl.
  - reflexivity.
  - rewrite IH. now apply step_other_student.
Qed.

(** The last row of an upload that names a student decides the grade of
    the student, whatever the rows before it did. *)
Lemma last_row_of_student_wins (index : nat) (pre post : list (list Cell))
      (row : list Cell) (st : LoopState) (pct : option number) (s : Student) :
  unique_together (table st) ->
  NoDup (map student_pk students) ->
  row_percentage cols pcol row = Ok pct ->
  percentage_error pct = None ->
  Student_objects_get students (sid_of row) = Found s ->
  PyStr.mem (grade_of row) valid_grades = true ->
  Forall (fun r => sid_of r <> sid_of row) post ->
  exists g,
    filter (same_key s course sem ay) (table (loop index (pre ++ row :: post) st)) = [g] /\
    grade g = grade_of row /\ percentage g = pct /\ created_by g = cb.
Proof.
  intros Huniq Hnd Hpct Haccept Hget Hvalid Hpost.
  rewrite process_rows_app. cbn [process_rows].
  destruct (Student_objects_get_found _ _ Hget) as [Hin Hsid].
  rewrite loop_other_students; [|assumption|assumption|now rewrite Hsid].
  apply step_upserts; try assumption.
  now apply loop_unique.
Qed.

End LaterRowWins.

(** C4. On a table that satisfies the constraint [unique_together], two
    upserts for the same student, course, semester and academic year, each
    with a percentage that the store accepts, leave exactly one row with
    that key, and it holds the grade, the percentage and the author of the
    second; a second upsert that the store refuses raises and leaves the row
    of the first.  In one upload whose labels occur once each, the last row
    that names a student decides, when it passes the checks and the store
    accepts it: after the loop the table has exactly one row for the
    student, with the grade of the row's grade cell, the number of its
    percentage cell (none without a percentage column or with an empty
    cell) and the author of the call, and the row is no error whatever rows
    came before it. *)
Theorem upsert_last_write_wins {host : Host} :
  (forall (table : list Grade) st c sem ay v1 p1 cb1 v2 p2 cb2,
      unique_together table ->
      percentage_error p1 = None ->
      percentage_error p2 = None ->
      exists t1 created1 t2 g,
        update_or_create table st c sem ay v1 p1 cb1 = Ok (t1, created1) /\
        update_or_create t1 st c sem ay v2 p2 cb2 = Ok (t2, false) /\
        filter (same_key st c sem ay) t2 = [g] /\
        grade g = v2 /\ percentage g = p2 /\ created_by g = cb2) /\
  (forall (table : list Grade) st c sem ay v1 p1 cb1 v2 p2 cb2 msg,
      unique_together table ->
      percentage_error p1 = None ->
      percentage_error p2 = Some msg ->
      exists t1 created1 g,
        update_or_create table st c sem ay v1 p1 cb1 = Ok (t1, created1) /\
        update_or_create t1 st c sem ay v2 p2 cb2 = Raise msg /\
        filter (same_key st c sem ay) t1 = [g] /\
        grade g = v1 /\ percentage g = p1 /\ created_by g = cb1) /\
  (forall students course sem ay cb cols sid_col g_col pcol
          index (pre post : list (list Cell)) row st pct s,
      labels_occur_once cols sid_col g_col pcol ->
      unique_together (table st) ->
      NoDup (map student_pk students) ->
      match pcol with
      | Some pc =>
          if PyStr.truthy pc && notna (getitem cols row pc)
          then exists x, py_float (getitem cols row pc) = Ok x /\
                         decimal_field_error x = None /\ pct = Some x
          else pct = None
      | None => pct = None
      end ->
      Student_objects_get students (PyStr.strip (py_str (getitem cols row sid_col)))
      = Found s ->
      PyStr.mem (PyStr.upper (PyStr.strip (py_str (getitem cols row g_col)))) valid_grades
      = true ->
      Forall (fun r => PyStr.strip (py_str (getitem cols r sid_col))
                       <> PyStr.strip (py_str (getitem cols row sid_col))) post ->
      errors (process_rows students course sem ay cb cols sid_col g_col pcol
                index (pre ++ [row]) st)
      = errors (process_rows students course sem ay cb cols sid_col g_col pcol
                  index pre st) /\
      exists g,
        filter (same_key s course sem ay)
          (table (process_rows students course sem ay cb cols sid_col g_col pcol
                    index (pre ++ row :: post) st)) = [g] /\
        grade g = PyStr.upper (PyStr.strip (py_str (getitem cols row g_col))) /\
        percentage g = pct /\ created_by g = cb).
Proof.
  split; [|split].
  - intros table st c sem ay v1 p1 cb1 v2 p2 cb2 Huniq Hp1 Hp2.
    destruct (update_or_create_unique table st c sem ay v1 p1 cb1 Huniq Hp1)
      as (t1 & created1 & g1 & Hup1 & _ & Hf1 & _ & _ & _ & Huniq1).
    destruct (update_or_create_unique t1 st c sem ay v2 p2 cb2 Huniq1 Hp2)
      as (t2 & created2 & g2 & Hup2 & Hcreated2 & Hf2 & Hg & Hp & Hc & _).
    rewrite Hf1 in Hcreated2. subst created2.
    exists t1, created1, t2, g2. auto 7.
  - intros table st c sem ay v1 p1 cb1 v2 p2 cb2 msg Huniq Hp1 Hp2.
    destruct (update_or_create_unique table st c sem ay v1 p1 cb1 Huniq Hp1)
      as (t1 & created1 & g1 & Hup1 & _ & Hf1 & Hg & Hp & Hc & Huniq1).
    exists t1, created1, g1.
    split; [exact Hup1|].
    split; [now apply update_or_create_refused|]. auto.
  - intros students course sem ay cb cols sid_col g_col pcol index pre post row st pct s
           _ Huniq Hnd Hcell Hget Hvalid Hpost.
    assert (Hpct : row_percentage cols pcol row = Ok pct).
    { apply row_percentage_of_cell.
      destruct pcol as [pc|]; [|exact Hcell].
      destruct (PyStr.truthy pc && notna (getitem cols row pc)); [|exact Hcell].
      destruct Hcell as (x & Hx & _ & Hp). eauto. }
    assert (Haccept : percentage_error pct = None).
    { destruct pcol as [pc|]; [|now subst pct].
      destruct (PyStr.truthy pc && notna (getitem cols row pc)); [|now subst pct].
      destruct Hcell as (x & _ & Hx & ->). exact Hx. }
    split.
    + rewrite process_rows_app. cbn [process_rows].
      apply step_upserts with (pct := pct) (s := s); try assumption.
      now apply loop_unique.
    + now apply last_row_of_student_wins.
Qed.

Lemma upsert_last_write_wins_witness :
  exists g,
    filter (same_key Sample.stu001 Sample.cs101 "Fall 2024" "2024-2025")
      (table (process_rows (host := WholeNumbers.host) Sample.students Sample.cs101
                "Fall 2024" "2024-2025" None ["student id"; "grade"; "percentage"]
                "student id" "grade" (Some "percentage") 0
                ([[Sample.text "STU001"; Sample.text "B"; Sample.text "70"]]
                   ++ [Sample.text "STU001"; Sample.text "a"; Sample.text "90"] :: [])
                {| table := []; grades_created := 0; errors := [] |})) = [g] /\
    grade g = "A" /\ percentage g = Some 90 /\ created_by g = None.
Proof.
  apply (proj2 (proj2 (@upsert_last_write_wins WholeNumbers.host))
           Sample.students Sample.cs101 "Fall 2024" "2024-2025" None
           ["student id"; "grade"; "percentage"] "student id" "grade"
           (Some "percentage") 0
           [[Sample.text "STU001"; Sample.text "B"; Sample.text "70"]] []
           [Sample.text "STU001"; Sample.text "a"; Sample.text "90"]
           {| table := []; grades_created := 0; errors := [] |}
           (Some 90) Sample.stu001).
  - repeat split; reflexivity.
  - intros st c sem ay. simpl. lia.
  - repeat constructor; simpl; intuition discriminate.
  - simpl. exists 90. repeat split; reflexivity.
  - reflexivity.
  - reflexivity.
  - constructor.
Defined.

(* ================================================================== *)
(** * The percentage cell *)

Section PercentageCell.

Context {host : Host}.

Variables (students : list Student) (course : Course) (sem ay : string)
          (cb : option Account) (cols : list string) (sid_col g_col : string)
          (pcol : option string).

Local Abbreviation step := (process_row students course sem ay cb cols sid_col g_col pcol).
Local Abbreviation loop := (process_rows students course sem ay cb cols sid_col g_col pcol).

(** The table and the counter after a row depend neither on the index of
    the row nor on the errors recorded so far, and the row adds the same
    number of errors whatever they are. *)
Lemma step_independent (index index' : nat) (row : list Cell) (st st' : LoopState) :
  table st = table st' ->
  grades_created st = grades_created st' ->
  table (step index row st) = table (step index' row st') /\
  grades_created (step index row st) = grades_created (step index' row st') /\
  List.length (errors (step index row st)) + List.length (errors st')
  = List.length (errors (step index' row st')) + List.length (errors st).
Proof.
  destruct st as [t n e], st' as [t' n' e']. simpl. intros <- <-.
  unfold process_row.
  destruct (row_percentage cols pcol row) as [pct|msg];
    [|simpl; rewrite !length_app; simpl; repeat split; lia].
  destruct (Student_objects_get students _) as [s| |];
    try (simpl; rewrite !length_app; simpl; repeat split; lia).
  destruct (negb (PyStr.mem _ valid_grades));
    [simpl; rewrite !length_app; simpl; repeat split; lia|].
  cbn [table grades_created errors].
  destruct (update_or_create t s course sem ay _ pct cb) as [[t1 created]|msg];
    simpl; [|rewrite !length_app; simpl]; repeat split; lia.
Qed.

Lemma loop_independent (rs : list (list Cell)) :
  forall index index' st st',
    table st = table st' ->
    grades_created st = grades_created st' ->
    table (loop index rs st) = table (loop index' rs st') /\
    grades_created (loop index rs st) = grades_created (loop index' rs st') /\
    List.length (errors (loop index rs st)) + List.length (errors st')
    = List.length (errors (loop index' rs st')) + List.length (errors st).
Proof.
  induction rs as [|row rs IH]; intros index index' st st' Ht Hc; simpl.
  - repeat split; try assumption. lia.
  - destruct (step_independent index index' row st st' Ht Hc) as (Ht1 & Hc1 & He1).
    destruct (IH (S index) (S index') _ _ Ht1 Hc1) as (Ht2 & Hc2 & He2).
    repeat split; try assumption. lia.
Qed.

(** A row whose percentage the store refuses is one error with the number
    of the row, and the error is that of the store when the row passes the
    other checks on a table that satisfies the constraint. *)
Lemma step_refused (index : nat) (row : list Cell) (st : LoopState)
      (x : number) (msg : string) :
  row_percentage cols pcol row = Ok (Some x) ->
  decimal_field_error x = Some msg ->
  exists e,
    step index row st = errors_append st e /\
    cites_row e (index + 2) /\
    (unique_together (table st) ->
     (exists s,
         Student_objects_get students (PyStr.strip (py_str (getitem cols row sid_col)))
         = Found s) ->
     PyStr.mem (PyStr.upper (PyStr.strip (py_str (getitem cols row g_col)))) valid_grades
     = true ->
     e = "Error processing row " ++ PyStr.str_of_nat (index + 2) ++ ": " ++ msg).
Proof.
  intros Hpct Hrefused. unfold process_row. rewrite Hpct.
  destruct (Student_objects_get students _) as [s| |].
  2:{ eexists. split; [reflexivity|]. split; [constructor|].
      intros _ [s Hs]. discriminate. }
  2:{ eexists. split; [reflexivity|]. split; [constructor|].
      intros _ [s Hs]. discriminate. }
  destruct (PyStr.mem _ valid_grades) eqn:Hmem; cbn [negb].
  2:{ eexists. split; [reflexivity|]. split; [constructor|].
      intros _ _ H. discriminate. }
  unfold update_or_create.
  destruct (filter (same_key s course sem ay) (table st)) as [|g [|g' gs]] eqn:Hf;
    cbn [percentage_error]; try rewrite Hrefused.
  - eexists. split; [reflexivity|]. split; [constructor | reflexivity].
  - eexists. split; [reflexivity|]. split; [constructor | reflexivity].
  - eexists. split; [reflexivity|]. split; [constructor|].
    intros Huniq _ _. pose proof (Huniq s course sem ay) as Hle.
    rewrite Hf in Hle. simpl in Hle. lia.
Qed.

(** A row that is only an error, in an upload: the rows before and after it
    are processed as in the upload without it. *)
Lemma failed_row_in_batch (index : nat) (pre post : list (list Cell))
      (row : list Cell) (st : LoopState) (e : string) :
  step (index + List.length pre) row (loop index pre st)
  = errors_append (loop index pre st) e ->
  loop index (pre ++ row :: post) st
  = loop (S (index + List.length pre)) post (errors_append (loop index pre st) e) /\
  table (loop index (pre ++ row :: post) st) = table (loop index (pre ++ post) st) /\
  grades_created (loop index (pre ++ row :: post) st)
  = grades_created (loop index (pre ++ post) st) /\
  List.length (errors (loop index (pre ++ row :: post) st))
  = S (List.length (errors (loop index (pre ++ post) st))).
Proof.
  intros Hstep.
  rewrite !process_rows_app. cbn [process_rows]. rewrite Hstep.
  set (before := loop index pre st).
  set (failed := errors_append before e).
  destruct (loop_independent post (S (index + List.length pre)) (index + List.length pre)
              failed before eq_refl eq_refl) as (Ht & Hc & He).
  assert (Hfailed : List.length (errors failed) = S (List.length (errors before))).
  { unfold failed, errors_append. cbn [errors]. rewrite length_app. simpl. lia. }
  repeat split; try assumption. lia.
Qed.

End PercentageCell.

(** C6. With a percentage column, in an upload whose labels occur once
    each: a row whose percentage cell is empty is processed as if there
    were no percentage column, so that an otherwise valid row is no error
    and gets its Grade, without a percentage; a row whose percentage cell is
    malformed (it does not convert, or it converts to a number that the
    column of the store cannot hold) adds one error, that of its own row,
    which is the processing error with the text of the exception when the
    cell does not convert or the row is otherwise valid, and it leaves the
    table and the counter as they were; the rows before and after it are
    processed as in the upload without it. *)
Theorem percentage_cell_policy {host : Host}
        (students : list Student) (course : Course) (sem ay : string)
        (cb : option Account) (cols : list string) (sid_col g_col pc : string) :
  PyStr.truthy pc = true ->
  labels_occur_once cols sid_col g_col (Some pc) ->
  (forall index row st,
      getitem cols row pc = CNaN ->
      process_row students course sem ay cb cols sid_col g_col (Some pc) index row st
      = process_row students course sem ay cb cols sid_col g_col None index row st) /\
  (forall index row st s,
      getitem cols row pc = CNaN ->
      unique_together (table st) ->
      Student_objects_get students (PyStr.strip (py_str (getitem cols row sid_col)))
      = Found s ->
      PyStr.mem (PyStr.upper (PyStr.strip (py_str (getitem cols row g_col)))) valid_grades
      = true ->
      errors (process_row students course sem ay cb cols sid_col g_col (Some pc)
                index row st) = errors st /\
      exists g,
        filter (same_key s course sem ay)
          (table (process_row students course sem ay cb cols sid_col g_col (Some pc)
                    index row st)) = [g] /\
        grade g = PyStr.upper (PyStr.strip (py_str (getitem cols row g_col))) /\
        percentage g = None) /\
  (forall index (pre post : list (list Cell)) row st msg,
      notna (getitem cols row pc) = true ->
      py_float (getitem cols row pc) = Raise msg \/
      (exists x, py_float (getitem cols row pc) = Ok x /\
                 decimal_field_error x = Some msg) ->
      let loop := process_rows students course sem ay cb cols sid_col g_col (Some pc) in
      let before := loop index pre st in
      exists e,
        cites_row e (index + List.length pre + 2) /\
        (py_float (getitem cols row pc) = Raise msg \/
         (unique_together (table before) /\
          (exists s,
              Student_objects_get students
                (PyStr.strip (py_str (getitem cols row sid_col))) = Found s) /\
          PyStr.mem (PyStr.upper (PyStr.strip (py_str (getitem cols row g_col))))
            valid_grades = true) ->
         e = "Error processing row " ++ PyStr.str_of_nat (index + List.length pre + 2)
               ++ ": " ++ msg) /\
        process_row students course sem ay cb cols sid_col g_col (Some pc)
          (index + List.length pre) row before = errors_append before e /\
        table (errors_append before e) = table before /\
        loop index (pre ++ row :: post)%list st
        = loop (S (index + List.length pre)) post (errors_append before e) /\
        table (loop index (pre ++ row :: post)%list st)
        = table (loop index (pre ++ post)%list st) /\
        grades_created (loop index (pre ++ row :: post)%list st)
        = grades_created (loop index (pre ++ post)%list st) /\
        List.length (errors (loop index (pre ++ row :: post)%list st))
        = S (List.length (errors (loop index (pre ++ post)%list st)))).
Proof.
  intros Hpc _.
  assert (Hempty : forall row, getitem cols row pc = CNaN ->
                               row_percentage cols (Some pc) row = Ok None).
  { intros row Hcell. unfold row_percentage. rewrite Hcell. simpl.
    now rewrite andb_false_r. }
  split; [|split].
  - intros index row st Hcell. unfold process_row.
    now rewrite (Hempty row Hcell).
  - intros index row st s Hcell Huniq Hget Hvalid.
    destruct (step_upserts students course sem ay cb cols sid_col g_col (Some pc)
                index row st None s Huniq (Hempty row Hcell) eq_refl Hget Hvalid)
      as (Herr & g & Hf & Hg & Hp & _).
    split; [exact Herr|]. exists g. auto.
  - intros index pre post row st msg Hnotna Hbad. cbv zeta.
    set (before := process_rows students course sem ay cb cols sid_col g_col (Some pc)
                     index pre st).
    assert (Hstep : exists e,
               process_row students course sem ay cb cols sid_col g_col (Some pc)
                 (index + List.length pre) row before = errors_append before e /\
               cites_row e (index + List.length pre + 2) /\
               (py_float (getitem cols row pc) = Raise msg \/
                (unique_together (table before) /\
                 (exists s,
                     Student_objects_get students
                       (PyStr.strip (py_str (getitem cols row sid_col))) = Found s) /\
                 PyStr.mem (PyStr.upper (PyStr.strip (py_str (getitem cols row g_col))))
                   valid_grades = true) ->
                e = "Error processing row "
                      ++ PyStr.str_of_nat (index + List.length pre + 2) ++ ": " ++ msg)).
    { destruct Hbad as [Hraise | (x & Hx & Hrefused)].
      - assert (Hpct : row_percentage cols (Some pc) row = Raise msg).
        { unfold row_percentage. now rewrite Hpc, Hnotna, Hraise. }
        eexists. split; [|split; [|intros _; reflexivity]].
        + rewrite (process_row_float_raises students course sem ay cb cols sid_col g_col
                     (Some pc) (index + List.length pre) row before msg Hpct).
          reflexivity.
        + constructor.
      - assert (Hpct : row_percentage cols (Some pc) row = Ok (Some x)).
        { unfold row_percentage. now rewrite Hpc, Hnotna, Hx. }
        destruct (step_refused students course sem ay cb cols sid_col g_col (Some pc)
                    (index + List.length pre) row before x msg Hpct Hrefused)
          as (e & He & Hcites & Htext).
        exists e. split; [exact He|]. split; [exact Hcites|].
        intros [Hraise | (Hu & Hs & Hv)]; [congruence | now apply Htext]. }
    destruct Hstep as (e & Hstep & Hcites & Htext).
    destruct (failed_row_in_batch students course sem ay cb cols sid_col g_col (Some pc)
                index pre post row st e Hstep) as (Hloop & Ht & Hc & He).
    exists e. repeat split; assumption.
Qed.

Lemma percentage_cell_policy_witness :
  table (process_rows (host := WholeNumbers.host) Sample.students Sample.cs101
           "Fall 2024" "2024-2025" None ["student id"; "grade"; "percentage"]
           "student id" "grade" (Some "percentage") 0
           ([Sample.good_row] ++ Sample.bad_percentage_row :: [Sample.empty_percentage_row])
           Sample.no_grades)
  = table (process_rows (host := WholeNumbers.host) Sample.students Sample.cs101
             "Fall 2024" "2024-2025" None ["student id"; "grade"; "percentage"]
             "student id" "grade" (Some "percentage") 0
             ([Sample.good_row] ++ [Sample.empty_percentage_row])
             Sample.no_grades).
Proof.
  destruct (proj2 (proj2 (@percentage_cell_policy WholeNumbers.host Sample.students
                            Sample.cs101 "Fall 2024" "2024-2025" None
                            ["student id"; "grade"; "percentage"]
                            "student id" "grade" "percentage" eq_refl
                            (conj eq_refl (conj eq_refl eq_refl))))
              0 [Sample.good_row] [Sample.empty_percentage_row] Sample.bad_percentage_row
              Sample.no_grades "could not convert string to float: 'abc'" eq_refl
              (or_introl eq_refl))
    as (e & _ & _ & _ & _ & _ & Htable & _).
  exact Htable.
Defined.

(* ================================================================== *)
(** * The order of the checks on a row *)

(** C5, as the code has it.  In an upload whose labels occur once each, the
    body of the row loop reads the student identifier and the grade, then
    converts the percentage cell, and only then looks the student up and
    validates the grade.  A percentage cell that does not convert makes the
    row a processing error, whoever the student is; a row is a "not found"
    error when its percentage cell is absent, empty or converts and no
    student has the identifier; it is an invalid-grade error when, after
    these two, the grade is not in the enumeration. *)
Theorem row_checks_percentage_first {host : Host}
        (students : list Student) (course : Course) (sem ay : string)
        (cb : option Account) (cols : list string) (sid_col g_col : string)
        (pcol : option string) (index : nat) (row : list Cell) (st : LoopState) :
  labels_occur_once cols sid_col g_col pcol ->
  (forall pc msg,
      pcol = Some pc -> PyStr.truthy pc = true ->
      notna (getitem cols row pc) = true ->
      py_float (getitem cols row pc) = Raise msg ->
      process_row students course sem ay cb cols sid_col g_col pcol index row st
      = errors_append st
          ("Error processing row " ++ PyStr.str_of_nat (index + 2) ++ ": " ++ msg)) /\
  (match pcol with
   | Some pc =>
       if PyStr.truthy pc && notna (getitem cols row pc)
       then exists x, py_float (getitem cols row pc) = Ok x
       else True
   | None => True
   end ->
   Student_objects_get students (PyStr.strip (py_str (getitem cols row sid_col)))
   = DoesNotExist ->
   process_row students course sem ay cb cols sid_col g_col pcol index row st
   = errors_append st
       ("Student with ID " ++ PyStr.strip (py_str (getitem cols row sid_col))
          ++ " not found (row " ++ PyStr.str_of_nat (index + 2) ++ ")")) /\
  (forall s,
      match pcol with
      | Some pc =>
          if PyStr.truthy pc && notna (getitem cols row pc)
          then exists x, py_float (getitem cols row pc) = Ok x
          else True
      | None => True
      end ->
      Student_objects_get students (PyStr.strip (py_str (getitem cols row sid_col)))
      = Found s ->
      PyStr.mem (PyStr.upper (PyStr.strip (py_str (getitem cols row g_col)))) valid_grades
      = false ->
      process_row students course sem ay cb cols sid_col g_col pcol index row st
      = errors_append st
          ("Invalid grade '"
             ++ PyStr.upper (PyStr.strip (py_str (getitem cols row g_col)))
             ++ "' for student " ++ PyStr.strip (py_str (getitem cols row sid_col))
             ++ " (row " ++ PyStr.str_of_nat (index + 2) ++ ")")).
Proof.
  intros _.
  assert (Hread :
            match pcol with
            | Some pc =>
                if PyStr.truthy pc && notna (getitem cols row pc)
                then exists x, py_float (getitem cols row pc) = Ok x
                else True
            | None => True
            end ->
            exists pct, row_percentage cols pcol row = Ok pct).
  { unfold row_percentage. destruct pcol as [pc|]; [|eauto].
    destruct (PyStr.truthy pc && notna (getitem cols row pc)); [|eauto].
    intros (x & ->). eauto. }
  split; [|split].
  - intros pc msg -> Hpc Hnotna Hfloat.
    apply process_row_float_raises.
    unfold row_percentage. now rewrite Hpc, Hnotna, Hfloat.
  - intros Hcell. destruct (Hread Hcell) as [pct Hpct].
    now apply process_row_not_found with (pct := pct).
  - intros s Hcell. destruct (Hread Hcell) as [pct Hpct].
    now apply process_row_invalid_grade with (pct := pct).
Qed.

Lemma row_checks_percentage_first_witness :
  process_row (host := WholeNumbers.host) Sample.students Sample.cs101
    "Fall 2024" "2024-2025" None ["student id"; "grade"; "percentage"]
    "student id" "grade" (Some "percentage") 0
    [Sample.text "STU999"; Sample.text "A"; Sample.text "abc"] Sample.no_grades
  = errors_append Sample.no_grades
      "Error processing row 2: could not convert string to float: 'abc'".
Proof.
  exact (proj1 (@row_checks_percentage_first WholeNumbers.host Sample.students Sample.cs101
                  "Fall 2024" "2024-2025" None ["student id"; "grade"; "percentage"]
                  "student id" "grade" (Some "percentage") 0
                  [Sample.text "STU999"; Sample.text "A"; Sample.text "abc"]
                  Sample.no_grades (conj eq_refl (conj eq_refl eq_refl)))
           "percentage" "could not convert string to float: 'abc'"
           eq_refl eq_refl eq_refl eq_refl).
Defined.

(** C5, the claim as written fails: no student has the identifier STU999,
    and the row is recorded as a processing error for its percentage cell,
    not as a student that is not found. *)
Lemma unknown_student_bad_percentage_not_reported_as_not_found :
  Student_objects_get Sample.students "STU999" = DoesNotExist /\
  fst (process_excel_grades (host := WholeNumbers.host) Sample.students []
         (Ok Sample.frame_unknown_student_bad_percentage) Sample.cs101
         "Fall 2024" "2024-2025" None)
  = Tuple3 true "Successfully created/updated 0 grade(s). 1 error(s) occurred."
      ["Error processing row 2: could not convert string to float: 'abc'"].
Proof. split; reflexivity. Qed.

(* ================================================================== *)
(** * The export *)

Section ExportOrder.

Context {host : Host}.

Lemma insert_ordered_permutation (g : Grade) (l : list Grade) :
  Permutation (insert_ordered g l) (g :: l).
Proof.
  induction l as [|h t IH]; simpl; [apply Permutation_refl|].
  destruct (meta_ordering_le g h); [apply Permutation_refl|].
  eapply Permutation_trans; [apply perm_skip, IH | apply perm_swap].
Qed.

Lemma order_by_meta_permutation (l : list Grade) : Permutation (order_by_meta l) l.
Proof.
  induction l as [|g l IH]; simpl; [constructor|].
  eapply Permutation_trans; [apply insert_ordered_permutation | now apply perm_skip].
Qed.

Lemma string_leb_total (a b : string) : String.leb a b = false -> String.leb b a = true.
Proof.
  unfold String.leb. rewrite (String.compare_antisym b a).
  destruct (String.compare a b); simpl; congruence.
Qed.

(** Of two rows one may come before the other. *)
Lemma meta_ordering_le_total (g h : Grade) :
  meta_ordering_le g h = false -> meta_ordering_le h g = true.
Proof.
  unfold meta_ordering_le.
  rewrite (String.compare_antisym (academic_year h) (academic_year g)).
  rewrite (String.compare_antisym (semester h) (semester g)).
  destruct (String.compare (academic_year g) (academic_year h)); simpl;
    try congruence.
  destruct (String.compare (semester g) (semester h)); simpl; try congruence.
  apply string_leb_total.
Qed.

Lemma insert_ordered_sorted (g : Grade) (l : list Grade) :
  Sorted (fun g1 g2 => meta_ordering_le g1 g2 = true) l ->
  Sorted (fun g1 g2 => meta_ordering_le g1 g2 = true) (insert_ordered g l).
Proof.
  induction l as [|h t IH]; intros Hs; simpl.
  - repeat constructor.
  - destruct (meta_ordering_le g h) eqn:Hgh.
    + constructor; [exact Hs | now constructor].
    + inversion Hs as [|? ? Hst Hhd]; subst.
      constructor; [now apply IH|].
      destruct t as [|k t']; simpl.
      * constructor. now apply meta_ordering_le_total.
      * destruct (meta_ordering_le g k).
        -- constructor. now apply meta_ordering_le_total.
        -- inversion Hhd; subst. now constructor.
Qed.

Lemma order_by_meta_sorted (l : list Grade) :
  Sorted (fun g1 g2 => meta_ordering_le g1 g2 = true) (order_by_meta l).
Proof.
  induction l as [|g l IH]; simpl; [constructor|].
  now apply insert_ordered_sorted.
Qed.

Lemma order_by_meta_nil (l : list Grade) : order_by_meta l = [] -> l = [].
Proof.
  intros H. apply Permutation_nil.
  rewrite <- H. apply order_by_meta_permutation.
Qed.

End ExportOrder.

(** C8. For a teacher of the course: when the Grade table has no row of
    the course the view produces no document, it queues the error "No
    grades found for this course." and redirects; when it has N such rows,
    the table handed to the renderer, which is the table of the response
    when the renderer succeeds, has exactly N rows, one for each row of the
    Grade table that is of the course, in the order of [Grade.Meta.ordering],
    each with the six columns Student ID, Student Name, Grade, Percentage,
    Semester, Academic Year in this order: the identifier of the student,
    the full name of the account or its username when the full name is
    empty, the grade, the percentage or a blank, the semester and the
    academic year. *)
Theorem export_one_row_per_grade {host : Host}
        (excel_to_pdf : list ExportRow -> Rendering)
        (all_courses : list Course) (grades : list Grade)
        (request : Request) (course_id : nat) (t : Teacher) (course : Course) :
  is_authenticated (req_user request) = true ->
  teacher_profile (req_user request) = Some t ->
  get_object_or_404 all_courses course_id = Some course ->
  course_in course (courses t) = true ->
  (filter (fun g => course_eqb (grade_course g) course) grades = [] ->
   convert_grades_to_pdf excel_to_pdf all_courses grades request course_id
   = (Redirect "edupace_app:teacher_course_detail" (Some course_id),
      [(msg_error, "No grades found for this course.")], tt)) /\
  (filter (fun g => course_eqb (grade_course g) course) grades <> [] ->
   exists queryset data,
     Permutation queryset (filter (fun g => course_eqb (grade_course g) course) grades) /\
     Sorted (fun g1 g2 => meta_ordering_le g1 g2 = true) queryset /\
     data
     = map (fun g =>
              [ ("Student ID", VStr (student_id (grade_student g)));
                ("Student Name",
                 VStr (if PyStr.truthy (get_full_name (student_user (grade_student g)))
                       then get_full_name (student_user (grade_student g))
                       else username (student_user (grade_student g))));
                ("Grade", VStr (grade g));
                ("Percentage",
                 match percentage g with
                 | Some x => if number_truthy x then VNum x else VStr EmptyString
                 | None => VStr EmptyString
                 end);
                ("Semester", VStr (semester g));
                ("Academic Year", VStr (academic_year g)) ]) queryset /\
     List.length data
     = List.length (filter (fun g => course_eqb (grade_course g) course) grades) /\
     (excel_to_pdf data = Built ->
      convert_grades_to_pdf excel_to_pdf all_courses grades request course_id
      = (FileResponse (code course ++ "_grades.pdf") data, [], tt))).
Proof.
  intros Hauth Hteacher Hcourse Hteaches.
  assert (Hrole : get_user_role (req_user request) = Some teacher).
  { unfold get_user_role, hasattr_teacher_profile. now rewrite Hauth, Hteacher. }
  assert (Hprofile : get_user_profile (req_user request) = Some (TeacherProfile t)).
  { unfold get_user_profile. now rewrite Hrole, Hteacher. }
  unfold convert_grades_to_pdf, role_required.
  rewrite Hauth, Hrole, Hcourse, Hprofile, Hteaches.
  cbn [negb existsb role_eqb orb]. cbv zeta.
  unfold grades_of_course.
  set (of_course := filter (fun g => course_eqb (grade_course g) course) grades).
  split.
  - intros ->. reflexivity.
  - intros Hnonempty.
    exists (order_by_meta of_course), (map export_row (order_by_meta of_course)).
    split; [apply order_by_meta_permutation|].
    split; [apply order_by_meta_sorted|].
    split; [reflexivity|].
    split.
    + rewrite length_map.
      apply Permutation_length, order_by_meta_permutation.
    + intros Hbuilt.
      destruct (order_by_meta of_course) as [|g gs] eqn:Hsorted.
      * apply order_by_meta_nil in Hsorted. contradiction.
      * now rewrite Hbuilt.
Qed.

Lemma export_one_row_per_grade_witness :
  exists queryset data,
    Permutation queryset [Sample.grade_b; Sample.grade_of_bob] /\
    List.length data = 2 /\
    convert_grades_to_pdf (host := WholeNumbers.host) Sample.always_built
      [Sample.cs101] [Sample.grade_b; Sample.grade_of_bob]
      (Sample.prof_request GET None) 1
    = (FileResponse "CS101_grades.pdf" data, [], tt).
Proof.
  destruct (proj2 (@export_one_row_per_grade WholeNumbers.host Sample.always_built
                     [Sample.cs101] [Sample.grade_b; Sample.grade_of_bob]
                     (Sample.prof_request GET None) 1 Sample.prof Sample.cs101
                     eq_refl eq_refl eq_refl eq_refl))
    as (queryset & data & Hperm & _ & _ & Hlen & Hresp).
  - discriminate.
  - exists queryset, data.
    split; [exact Hperm|]. split; [exact Hlen|].
    apply Hresp. reflexivity.
Defined.

(* ================================================================== *)
(** * Further properties of the roles and permissions *)

(** X1. [get_user_profile] returns the profile that goes with the role of
    [get_user_role]: a user with a role always has a profile, of the kind
    of the role, and a user without a role has none. *)
Theorem profile_matches_role (user : User) :
  match get_user_role user, get_user_profile user with
  | Some teacher, Some (TeacherProfile t) => teacher_profile user = Some t
  | Some student, Some (StudentProfile s) => student_profile user = Some s
  | Some academic_board, Some (AcademicBoardProfile b) =>
      academic_board_profile user = Some b
  | None, None => True
  | _, _ => False
  end.
Proof.
  unfold get_user_profile, get_user_role, hasattr_teacher_profile,
    hasattr_student_profile, hasattr_academic_board_profile.
  destruct (is_authenticated user); simpl; [|exact I].
  destruct (teacher_profile user) as [t|]; simpl; [reflexivity|].
  destruct (student_profile user) as [s|]; simpl; [reflexivity|].
  destruct (academic_board_profile user) as [b|]; simpl; [reflexivity | exact I].
Qed.

(** X2. No account has both kinds of write access: a user who may edit some
    course may not add learning outcomes or grades to any course. *)
Theorem edit_and_grade_permissions_exclusive (user : User) (c1 c2 : Course) :
  check_course_edit_permission user c1 = true ->
  check_learning_outcome_permission user c2 = false /\
  check_grade_permission user c2 = false.
Proof.
  unfold check_grade_permission, check_course_edit_permission,
    check_learning_outcome_permission.
  destruct (get_user_role user) as [[| |]|]; simpl; intros H;
    try discriminate; split; reflexivity.
Qed.

Lemma edit_and_grade_permissions_exclusive_witness :
  check_learning_outcome_permission Sample.board_user Sample.cs101 = false /\
  check_grade_permission Sample.board_user Sample.cs101 = false.
Proof.
  exact (edit_and_grade_permissions_exclusive Sample.board_user Sample.cs101
           Sample.cs101 eq_refl).
Defined.

(* ================================================================== *)
(** * Further properties of the header loop *)

Lemma mapped_fold_origin (cols : list string) :
  forall (pre : list string) (m : ColumnMap),
    (forall c col, mapped m c = Some col -> In col pre /\ column_category col = Some c) ->
    forall c col,
      mapped (fold_left map_column cols m) c = Some col ->
      In col (pre ++ cols) /\ column_category col = Some c.
Proof.
  induction cols as [|x cols IH]; intros pre m Hm c col; simpl.
  - rewrite app_nil_r. apply Hm.
  - intros H.
    replace (pre ++ x :: cols)%list with ((pre ++ [x]) ++ cols)%list
      by (rewrite <- app_assoc; reflexivity).
    apply (IH (pre ++ [x])%list (map_column m x)); [|exact H].
    intros c' col' Hc'.
    destruct (column_category x) as [cx|] eqn:Hx.
    + destruct (category_eqb cx c') eqn:Heq.
      * apply category_eqb_eq in Heq; subst cx.
        rewrite (mapped_map_column_same m x c' Hx) in Hc'.
        injection Hc' as <-. split; [|exact Hx].
        apply in_or_app. right. now left.
      * rewrite mapped_map_column_other in Hc'.
        -- destruct (Hm c' col' Hc') as [Hin Hcat].
           split; [apply in_or_app; now left | exact Hcat].
        -- rewrite Hx. intros [= ->]. destruct c'; discriminate.
    + rewrite mapped_map_column_other in Hc' by congruence.
      destruct (Hm c' col' Hc') as [Hin Hcat].
      split; [apply in_or_app; now left | exact Hcat].
Qed.

(** X3. The label the header loop keeps for a branch is a label of the
    header and takes that branch; hence the labels kept for the student
    identifier, the grade and the percentage are three different labels, and
    a label with "student" and "id" in it is never the grade column. *)
Theorem mapped_label_of_its_branch (cols : list string) :
  (forall c col,
      mapped (map_columns cols) c = Some col ->
      In col cols /\ column_category col = Some c) /\
  (forall a b p,
      student_id_col (map_columns cols) = Some a ->
      grade_col (map_columns cols) = Some b ->
      a <> b /\
      PyStr.contains "student" b && PyStr.contains "id" b = false /\
      (percentage_col (map_columns cols) = Some p -> p <> a /\ p <> b)).
Proof.
  assert (Horigin : forall c col,
             mapped (map_columns cols) c = Some col ->
             In col cols /\ column_category col = Some c).
  { intros c col H.
    apply (mapped_fold_origin cols [] no_columns); [|exact H].
    intros c' col'. destruct c'; discriminate. }
  split; [exact Horigin|].
  intros a b p Ha Hb.
  destruct (Horigin StudentIdColumn a Ha) as [_ Hca].
  destruct (Horigin GradeColumn b Hb) as [_ Hcb].
  split; [congruence|]. split.
  - unfold column_category in Hcb.
    destruct (PyStr.contains "student" b && PyStr.contains "id" b);
      [discriminate | reflexivity].
  - intros Hp. destruct (Horigin PercentageColumn p Hp) as [_ Hcp].
    split; congruence.
Qed.

Lemma mapped_label_of_its_branch_witness :
  "student id" <> "grade" /\
  PyStr.contains "student" "grade" && PyStr.contains "id" "grade" = false /\
  (percentage_col (map_columns ["student id"; "grade"; "percent (%)"])
   = Some "percent (%)" ->
   "percent (%)" <> "student id" /\ "percent (%)" <> "grade").
Proof.
  exact (proj2 (mapped_label_of_its_branch ["student id"; "grade"; "percent (%)"])
           "student id" "grade" "percent (%)" eq_refl eq_refl).
Defined.


(* ================================================================== *)
(** * Invariants of the ingestion *)

Section IngestionInvariants.

Context {host : Host}.

Variables (students : list Student) (course : Course) (sem ay : string)
          (cb : option Account) (cols : list string) (sid_col g_col : string)
          (pcol : option string).

Local Abbreviation step := (process_row students course sem ay cb cols sid_col g_col pcol).
Local Abbreviation loop := (process_rows students course sem ay cb cols sid_col g_col pcol).

Lemma step_valid_grades (index : nat) (row : list Cell) (st : LoopState) :
  Forall valid_grade (table st) -> Forall valid_grade (table (step index row st)).
Proof.
  intros Hvalid. unfold process_row.
  destruct (row_percentage cols pcol row) as [pct|msg]; [|exact Hvalid].
  destruct (Student_objects_get students _) as [s| |]; try exact Hvalid.
  destruct (negb (PyStr.mem _ valid_grades)) eqn:Hmem; [exact Hvalid|].
  apply negb_false_iff in Hmem.
  destruct (update_or_create_cases (table st) s course sem ay
              (PyStr.upper (PyStr.strip (py_str (getitem cols row g_col)))) pct cb)
    as [[msg ->] | [(_ & _ & ->) | (g & _ & _ & ->)]]; cbn [table]; [exact Hvalid | | ].
  - apply Forall_app. split; [exact Hvalid|]. constructor; [exact Hmem | constructor].
  - apply Forall_map. revert Hvalid. apply Forall_impl. intros x Hx.
    unfold write. destruct (same_key _ _ _ _ x); [exact Hmem | exact Hx].
Qed.

Lemma loop_valid_grades (rs : list (list Cell)) :
  forall index st,
    Forall valid_grade (table st) -> Forall valid_grade (table (loop index rs st)).
Proof.
  induction rs as [|row rs IH]; intros index st H; simpl; [exact H|].
  apply IH. now apply step_valid_grades.
Qed.

Lemma keeps_rows_refl (t : list Grade) : keeps_rows course sem ay t t.
Proof. intros i g H. exists g. repeat split; auto. Qed.

Lemma keeps_rows_trans (t1 t2 t3 : list Grade) :
  keeps_rows course sem ay t1 t2 -> keeps_rows course sem ay t2 t3 ->
  keeps_rows course sem ay t1 t3.
Proof.
  intros H12 H23 i g Hg.
  destruct (H12 i g Hg) as (g2 & Hn2 & Hs2 & Hc2 & Hm2 & Hy2 & Ho2).
  destruct (H23 i g2 Hn2) as (g3 & Hn3 & Hs3 & Hc3 & Hm3 & Hy3 & Ho3).
  exists g3. repeat split; try congruence.
  intros Hother. rewrite <- (Ho2 Hother). apply Ho3.
  now rewrite Hc2, Hm2, Hy2.
Qed.

Lemma step_keeps_rows (index : nat) (row : list Cell) (st : LoopState) :
  keeps_rows course sem ay (table st) (table (step index row st)).
Proof.
  unfold process_row.
  destruct (row_percentage cols pcol row) as [pct|msg]; [|apply keeps_rows_refl].
  destruct (Student_objects_get students _) as [s| |]; try apply keeps_rows_refl.
  destruct (negb (PyStr.mem _ valid_grades)); [apply keeps_rows_refl|].
  destruct (update_or_create_cases (table st) s course sem ay
              (PyStr.upper (PyStr.strip (py_str (getitem cols row g_col)))) pct cb)
    as [[msg ->] | [(_ & _ & ->) | (g0 & _ & _ & ->)]]; cbn [table];
    [apply keeps_rows_refl | | ].
  - intros i g Hg. exists g. repeat split; auto.
    rewrite nth_error_app1; [exact Hg|].
    apply nth_error_Some. congruence.
  - intros i g Hg.
    exists (write s course sem ay
              (PyStr.upper (PyStr.strip (py_str (getitem cols row g_col)))) pct cb g).
    split; [rewrite nth_error_map, Hg; reflexivity|].
    unfold write, same_key.
    destruct (Nat.eqb _ _), (course_eqb _ _), (String.eqb (semester g) sem),
      (String.eqb (academic_year g) ay); simpl; repeat split; auto; discriminate.
Qed.

Lemma loop_keeps_rows (rs : list (list Cell)) :
  forall index st, keeps_rows course sem ay (table st) (table (loop index rs st)).
Proof.
  induction rs as [|row rs IH]; intros index st; simpl; [apply keeps_rows_refl|].
  eapply keeps_rows_trans; [apply step_keeps_rows | apply IH].
Qed.

(** Each row is one error, one creation or one update. *)
Lemma step_accounting (index : nat) (row : list Cell) (st : LoopState) :
  (if row_updates students course sem ay cb cols sid_col g_col pcol row st
   then 1 else 0)
  + grades_created (step index row st) + List.length (errors (step index row st))
  = 1 + grades_created st + List.length (errors st).
Proof.
  unfold process_row, row_updates.
  destruct (row_percentage cols pcol row) as [pct|msg];
    [|simpl; rewrite length_app; simpl; lia].
  destruct (Student_objects_get students _) as [s| |];
    try (simpl; rewrite length_app; simpl; lia).
  destruct (negb (PyStr.mem _ valid_grades)); [simpl; rewrite length_app; simpl; lia|].
  destruct (update_or_create _ _ _ _ _ _ _ _) as [[t' [|]]|msg]; simpl;
    try rewrite length_app; simpl; lia.
Qed.

Lemma loop_accounting (rs : list (list Cell)) :
  forall index st,
    updated_count students course sem ay cb cols sid_col g_col pcol index rs st
    + grades_created (loop index rs st) + List.length (errors (loop index rs st))
    = List.length rs + grades_created st + List.length (errors st).
Proof.
  induction rs as [|row rs IH]; intros index st; simpl; [reflexivity|].
  pose proof (IH (S index) (step index row st)) as H1.
  pose proof (step_accounting index row st) as H2.
  lia.
Qed.

(** A key that has a row keeps one. *)
Lemma step_keeps_key (index : nat) (row : list Cell) (st : LoopState)
      (s : Student) :
  filter (same_key s course sem ay) (table st) <> [] ->
  filter (same_key s course sem ay) (table (step index row st)) <> [].
Proof.
  intros Hkey. unfold process_row.
  destruct (row_percentage cols pcol row) as [pct|msg]; [|exact Hkey].
  destruct (Student_objects_get students _) as [s'| |]; try exact Hkey.
  destruct (negb (PyStr.mem _ valid_grades)); [exact Hkey|].
  destruct (update_or_create_cases (table st) s' course sem ay
              (PyStr.upper (PyStr.strip (py_str (getitem cols row g_col)))) pct cb)
    as [[msg ->] | [(_ & _ & ->) | (g0 & _ & _ & ->)]]; cbn [table];
    [exact Hkey | | ].
  - rewrite filter_app. intros Happ. apply app_eq_nil in Happ. tauto.
  - rewrite filter_map_commute by (intros; apply same_key_write).
    destruct (filter (same_key s course sem ay) (table st)); [congruence|discriminate].
Qed.

Lemma loop_keeps_key (rs : list (list Cell)) (s : Student) :
  forall index st,
    filter (same_key s course sem ay) (table st) <> [] ->
    filter (same_key s course sem ay) (table (loop index rs st)) <> [].
Proof.
  induction rs as [|row rs IH]; intros index st H; simpl; [exact H|].
  apply IH. now apply step_keeps_key.
Qed.

Local Abbreviation covered :=
  (covered_rows students course sem ay cols sid_col g_col pcol).

Lemma loop_covers (rs : list (list Cell)) :
  forall index st,
    unique_together (table st) -> covered rs (table (loop index rs st)).
Proof.
  induction rs as [|row rs IH]; intros index st Huniq; simpl.
  - intros row pct s [].
  - intros row' pct s [<-|Hin] Hpct Haccept Hget Hvalid.
    + apply loop_keeps_key.
      destruct (step_upserts students course sem ay cb cols sid_col g_col pcol
                  index row st pct s Huniq Hpct Haccept Hget Hvalid)
        as (_ & g & Hf & _).
      rewrite Hf. discriminate.
    + apply (IH (S index) (step index row st)) with (row := row') (pct := pct);
        try assumption.
      now apply step_unique.
Qed.

Lemma covered_creates_nothing (rs : list (list Cell)) :
  forall index st,
    unique_together (table st) ->
    covered rs (table st) ->
    grades_created (loop index rs st) = grades_created st /\
    List.length (table (loop index rs st)) = List.length (table st).
Proof.
  induction rs as [|row rs IH]; intros index st Huniq Hcov; simpl; [auto|].
  assert (Hstep : grades_created (step index row st) = grades_created st /\
                  List.length (table (step index row st)) = List.length (table st)).
  { unfold process_row.
    destruct (row_percentage cols pcol row) as [pct|msg] eqn:Hpct; [|auto].
    destruct (Student_objects_get students _) as [s| |] eqn:Hget; auto.
    destruct (negb (PyStr.mem _ valid_grades)) eqn:Hmem; [auto|].
    apply negb_false_iff in Hmem.
    destruct (update_or_create_cases (table st) s course sem ay
                (PyStr.upper (PyStr.strip (py_str (getitem cols row g_col)))) pct cb)
      as [[msg ->] | [(Hf & Haccept & ->) | (g0 & _ & _ & ->)]]; [auto | | ].
    - pose proof (Hcov row pct s (or_introl eq_refl) Hpct Haccept Hget Hmem) as Hkey.
      congruence.
    - simpl. split; [reflexivity | apply length_map]. }
  destruct Hstep as [Hc Hl].
  destruct (IH (S index) (step index row st)) as [Hc' Hl'].
  - now apply step_unique.
  - intros row' pct s Hin Hpct Haccept Hget Hvalid.
    apply step_keeps_key.
    apply (Hcov row' pct s); auto. now right.
  - split; congruence.
Qed.

(** On tables that satisfy the constraint, the errors of a row do not
    depend on the table. *)
Lemma step_same_errors (index : nat) (row : list Cell) (st st' : LoopState) :
  unique_together (table st) -> unique_together (table st') ->
  exists new,
    errors (step index row st) = (errors st ++ new)%list /\
    errors (step index row st') = (errors st' ++ new)%list.
Proof.
  intros Hu Hu'. unfold process_row.
  destruct (row_percentage cols pcol row) as [pct|msg];
    [|eexists; split; reflexivity].
  destruct (Student_objects_get students _) as [s| |];
    try (eexists; split; reflexivity).
  destruct (negb (PyStr.mem _ valid_grades)); [eexists; split; reflexivity|].
  destruct (percentage_error pct) as [msg|] eqn:Haccept.
  - rewrite (update_or_create_refused (table st) s course sem ay _ pct cb msg Hu Haccept).
    rewrite (update_or_create_refused (table st') s course sem ay _ pct cb msg Hu' Haccept).
    eexists; split; reflexivity.
  - destruct (update_or_create_unique (table st) s course sem ay
                (PyStr.upper (PyStr.strip (py_str (getitem cols row g_col)))) pct cb Hu Haccept)
      as (t1 & c1 & g1 & -> & _).
    destruct (update_or_create_unique (table st') s course sem ay
                (PyStr.upper (PyStr.strip (py_str (getitem cols row g_col)))) pct cb Hu' Haccept)
      as (t2 & c2 & g2 & -> & _).
    exists []. simpl. now rewrite !app_nil_r.
Qed.

Lemma loop_same_errors (rs : list (list Cell)) :
  forall index st st',
    unique_together (table st) -> unique_together (table st') ->
    exists new,
      errors (loop index rs st) = (errors st ++ new)%list /\
      errors (loop index rs st') = (errors st' ++ new)%list.
Proof.
  induction rs as [|row rs IH]; intros index st st' Hu Hu'; simpl.
  - exists []. now rewrite !app_nil_r.
  - destruct (step_same_errors index row st st' Hu Hu') as (new1 & H1 & H1').
    destruct (IH (S index) (step index row st) (step index row st')
                (step_unique students course sem ay cb cols sid_col g_col pcol
                   index row st Hu)
                (step_unique students course sem ay cb cols sid_col g_col pcol
                   index row st' Hu'))
      as (new2 & H2 & H2').
    exists (new1 ++ new2)%list.
    rewrite H2, H2', H1, H1', <- !app_assoc. auto.
Qed.

End IngestionInvariants.

Section IngestionProperties.

Context {host : Host}.

(** X4. The ingestion keeps the constraint [unique_together] of the Grade
    table, whatever the upload is. *)
Theorem ingestion_keeps_unique_together
        (students : list Student) (grades : list Grade) (excel : Result DataFrame)
        (course : Course) (sem ay : string) (cb : option Account) :
  unique_together grades ->
  unique_together (snd (process_excel_grades students grades excel course sem ay cb)).
Proof.
  intros Huniq. destruct excel as [df|e]; [|exact Huniq].
  destruct (required_columns_missing df) eqn:Hmiss.
  - now rewrite (process_excel_grades_missing _ _ _ _ _ _ _ Hmiss).
  - destruct (process_excel_grades_present students grades df course sem ay cb Hmiss)
      as (st & -> & ->).
    now apply loop_unique.
Qed.

(** X5. The ingestion only writes grades of the enumeration: when every row
    of the Grade table holds one of [GRADE_CHOICES] before, so it is
    after. *)
Theorem ingestion_keeps_grades_valid
        (students : list Student) (grades : list Grade) (excel : Result DataFrame)
        (course : Course) (sem ay : string) (cb : option Account) :
  Forall valid_grade grades ->
  Forall valid_grade (snd (process_excel_grades students grades excel course sem ay cb)).
Proof.
  intros Hvalid. destruct excel as [df|e]; [|exact Hvalid].
  destruct (required_columns_missing df) eqn:Hmiss.
  - now rewrite (process_excel_grades_missing _ _ _ _ _ _ _ Hmiss).
  - destruct (process_excel_grades_present students grades df course sem ay cb Hmiss)
      as (st & -> & ->).
    now apply loop_valid_grades.
Qed.

(** X6. The ingestion deletes no Grade and moves none: every row of the
    table is still at its place afterwards, with its student, course,
    semester and academic year, and the rows of another course, semester or
    academic year than those of the call are unchanged. *)
Theorem ingestion_keeps_rows
        (students : list Student) (grades : list Grade) (excel : Result DataFrame)
        (course : Course) (sem ay : string) (cb : option Account) :
  keeps_rows course sem ay grades
    (snd (process_excel_grades students grades excel course sem ay cb)).
Proof.
  destruct excel as [df|e]; [|apply keeps_rows_refl].
  destruct (required_columns_missing df) eqn:Hmiss.
  - rewrite (process_excel_grades_missing _ _ _ _ _ _ _ Hmiss). apply keeps_rows_refl.
  - destruct (process_excel_grades_present students grades df course sem ay cb Hmiss)
      as (st & -> & ->).
    apply (loop_keeps_rows students course sem ay cb _ _ _ _ (rows df) 0
             {| table := grades; grades_created := 0; errors := [] |}).
Qed.

(** X7. With both required columns present every data row is accounted for
    once: the number of rows is the number of records created, plus the
    number of rows whose upsert updated a record, plus the number of
    errors. *)
Theorem ingestion_accounts_for_every_row
        (students : list Student) (grades : list Grade) (df : DataFrame)
        (course : Course) (sem ay : string) (cb : option Account) :
  required_columns_missing df = false ->
  exists created errs table',
    process_excel_grades students grades (Ok df) course sem ay cb
    = (Tuple3 true (summary_message created errs) errs, table') /\
    List.length (rows df)
    = created + spec_updated students grades df course sem ay cb + List.length errs.
Proof.
  intros Hmiss.
  destruct (process_excel_grades_present students grades df course sem ay cb Hmiss)
    as (st & Hst & Hret).
  exists (grades_created st), (errors st), (table st). split; [exact Hret|].
  pose proof (loop_accounting students course sem ay cb
                (normalize_columns (columns df))
                (label (student_id_col (map_columns (normalize_columns (columns df)))))
                (label (grade_col (map_columns (normalize_columns (columns df)))))
                (percentage_col (map_columns (normalize_columns (columns df))))
                (rows df) 0
                {| table := grades; grades_created := 0; errors := [] |}) as H.
  rewrite <- Hst in H. simpl in H. unfold spec_updated. cbv zeta. lia.
Qed.

(** X8. Uploading the same sheet again creates nothing: on a table that
    satisfies [unique_together], the second run reports zero created
    records, leaves the table at its length and returns the same row errors
    as the first. *)
Theorem reupload_creates_nothing
        (students : list Student) (grades : list Grade) (df : DataFrame)
        (course : Course) (sem ay : string) (cb : option Account) :
  unique_together grades ->
  required_columns_missing df = false ->
  exists created errs table1 table2,
    process_excel_grades students grades (Ok df) course sem ay cb
    = (Tuple3 true (summary_message created errs) errs, table1) /\
    process_excel_grades students table1 (Ok df) course sem ay cb
    = (Tuple3 true (summary_message 0 errs) errs, table2) /\
    List.length table2 = List.length table1.
Proof.
  intros Huniq Hmiss.
  destruct (process_excel_grades_present students grades df course sem ay cb Hmiss)
    as (st1 & Hst1 & Hret1).
  destruct (process_excel_grades_present students (table st1) df course sem ay cb Hmiss)
    as (st2 & Hst2 & Hret2).
  set (cols := normalize_columns (columns df)) in *.
  set (sid_col := label (student_id_col (map_columns cols))) in *.
  set (g_col := label (grade_col (map_columns cols))) in *.
  set (pcol := percentage_col (map_columns cols)) in *.
  assert (Huniq1 : unique_together (table st1)).
  { rewrite Hst1. now apply loop_unique. }
  assert (Hcov : covered_rows students course sem ay cols sid_col g_col pcol
                   (rows df) (table st1)).
  { rewrite Hst1. now apply loop_covers. }
  destruct (covered_creates_nothing students course sem ay cb cols sid_col g_col pcol
              (rows df) 0
              {| table := table st1; grades_created := 0; errors := [] |}
              Huniq1 Hcov) as [Hc Hl].
  rewrite <- Hst2 in Hc, Hl. simpl in Hc, Hl.
  destruct (loop_same_errors students course sem ay cb cols sid_col g_col pcol
              (rows df) 0
              {| table := grades; grades_created := 0; errors := [] |}
              {| table := table st1; grades_created := 0; errors := [] |}
              Huniq Huniq1) as (new & He1 & He2).
  rewrite <- Hst1 in He1. rewrite <- Hst2 in He2. simpl in He1, He2.
  exists (grades_created st1), (errors st1), (table st1), (table st2).
  split; [exact Hret1|]. split; [|exact Hl].
  rewrite Hret2, Hc. now rewrite He2, <- He1.
Qed.

(** X9. An ingestion that reports failure has written nothing: when the
    success flag of the value returned is [False], the Grade table is the
    one before the call. *)
Theorem failed_ingestion_writes_nothing
        (students : list Student) (grades : list Grade) (excel : Result DataFrame)
        (course : Course) (sem ay : string) (cb : option Account) :
  success_of (fst (process_excel_grades students grades excel course sem ay cb)) = false ->
  snd (process_excel_grades students grades excel course sem ay cb) = grades.
Proof.
  destruct excel as [df|e]; [|reflexivity].
  destruct (required_columns_missing df) eqn:Hmiss.
  - now rewrite (process_excel_grades_missing _ _ _ _ _ _ _ Hmiss).
  - destruct (process_excel_grades_present students grades df course sem ay cb Hmiss)
      as (st & _ & ->).
    discriminate.
Qed.

End IngestionProperties.

Lemma ingestion_keeps_unique_together_witness :
  unique_together
    (snd (process_excel_grades (host := WholeNumbers.host) Sample.students
            [Sample.grade_b] (Ok Sample.frame_one_row) Sample.cs101
            "Fall 2024" "2024-2025" None)).
Proof.
  apply (@ingestion_keeps_unique_together WholeNumbers.host).
  intros st c sem ay. simpl.
  destruct (same_key st c sem ay Sample.grade_b); simpl; lia.
Defined.

Lemma ingestion_keeps_grades_valid_witness :
  Forall valid_grade
    (snd (process_excel_grades (host := WholeNumbers.host) Sample.students
            [Sample.grade_b] (Ok Sample.frame_one_row) Sample.cs101
            "Fall 2024" "2024-2025" None)).
Proof.
  apply (@ingestion_keeps_grades_valid WholeNumbers.host).
  repeat constructor.
Defined.

Lemma ingestion_accounts_for_every_row_witness :
  exists created errs table',
    process_excel_grades (host := WholeNumbers.host) Sample.students []
      (Ok Sample.frame_unknown_student_bad_percentage) Sample.cs101
      "Fall 2024" "2024-2025" None
    = (Tuple3 true (summary_message created errs) errs, table') /\
    1 = created
        + spec_updated (host := WholeNumbers.host) Sample.students []
            Sample.frame_unknown_student_bad_percentage Sample.cs101
            "Fall 2024" "2024-2025" None
        + List.length errs.
Proof.
  exact (@ingestion_accounts_for_every_row WholeNumbers.host Sample.students []
           Sample.frame_unknown_student_bad_percentage Sample.cs101
           "Fall 2024" "2024-2025" None eq_refl).
Defined.

Lemma reupload_creates_nothing_witness :
  exists created errs table1 table2,
    process_excel_grades (host := WholeNumbers.host) Sample.students []
      (Ok Sample.frame_one_row) Sample.cs101 "Fall 2024" "2024-2025" None
    = (Tuple3 true (summary_message created errs) errs, table1) /\
    process_excel_grades (host := WholeNumbers.host) Sample.students table1
      (Ok Sample.frame_one_row) Sample.cs101 "Fall 2024" "2024-2025" None
    = (Tuple3 true (summary_message 0 errs) errs, table2) /\
    List.length table2 = List.length table1.
Proof.
  apply (@reupload_creates_nothing WholeNumbers.host).
  - intros st c sem ay. simpl. lia.
  - reflexivity.
Defined.

Lemma failed_ingestion_writes_nothing_witness :
  snd (process_excel_grades (host := WholeNumbers.host) Sample.students
         [Sample.grade_b] (Ok Sample.frame_without_grade) Sample.cs101
         "Fall 2024" "2024-2025" None)
  = [Sample.grade_b].
Proof.
  apply (@failed_ingestion_writes_nothing WholeNumbers.host).
  reflexivity.
Defined.

(* ================================================================== *)
(** * Further properties of the two grade views *)

Section GradeViews.

Context {host : Host}.

Lemma role_is_teacher_authenticated (user : User) :
  role_is (get_user_role user) teacher = true ->
  is_authenticated user = true /\ get_user_role user = Some teacher.
Proof.
  unfold get_user_role.
  destruct (is_authenticated user); simpl; [|discriminate].
  destruct (hasattr_teacher_profile user); [auto|].
  destruct (hasattr_student_profile user); [discriminate|].
  destruct (hasattr_academic_board_profile user); discriminate.
Qed.

Lemma check_grade_permission_true (user : User) (course : Course) :
  check_grade_permission user course = true ->
  is_authenticated user = true /\
  exists t, teacher_profile user = Some t /\
            course_in course (courses t) = true /\
            is_locked course = false.
Proof.
  unfold check_grade_permission, check_learning_outcome_permission.
  destruct (role_is (get_user_role user) teacher) eqn:Hrole; [|discriminate].
  apply role_is_teacher_authenticated in Hrole. destruct Hrole as [Hauth _].
  simpl. destruct (teacher_profile user) as [t|]; [|discriminate].
  destruct (course_in course (courses t)) eqn:Hin; simpl; [|discriminate].
  intros Hlock. apply negb_true_iff in Hlock.
  split; [exact Hauth|]. exists t. auto.
Qed.

(** X10. [upload_grades] writes to the Grade table only for an
    authenticated teacher, on a course the teacher teaches and that is not
    locked, on a POST with a valid form whose sheet is read and has both
    required columns.  For every other request the table is unchanged. *)
Theorem upload_writes_only_when_permitted
        (all_courses : list Course) (students : list Student) (grades : list Grade)
        (request : Request) (course_id : nat) :
  snd (upload_grades all_courses students grades request course_id) <> grades ->
  exists course t form df,
    is_authenticated (req_user request) = true /\
    teacher_profile (req_user request) = Some t /\
    get_object_or_404 all_courses course_id = Some course /\
    course_in course (courses t) = true /\
    is_locked course = false /\
    req_method request = POST /\
    req_form request = Some form /\
    excel_file form = Ok df /\
    required_columns_missing df = false.
Proof.
  unfold upload_grades, role_required.
  destruct (is_authenticated (req_user request)); simpl; [|congruence].
  destruct (get_user_role (req_user request)) as [[| |]|]; simpl; try congruence.
  destruct (get_object_or_404 all_courses course_id) as [course|]; [|simpl; congruence].
  destruct (check_grade_permission (req_user request) course) eqn:Hperm;
    simpl; [|congruence].
  destruct (check_grade_permission_true _ _ Hperm) as (_ & t & Ht & Hin & Hlock).
  destruct (req_method request); [simpl; congruence|].
  destruct (req_form request) as [form|]; [|simpl; congruence].
  destruct (excel_file form) as [df|e] eqn:Hfile; [|simpl; congruence].
  destruct (required_columns_missing df) eqn:Hmiss.
  - rewrite (process_excel_grades_missing _ _ _ _ _ _ _ Hmiss). simpl. congruence.
  - intros _. exists course, t, form, df. repeat split; assumption.
Qed.

(** X11. [upload_grades] queues at most eleven messages: the summary and
    at most ten warnings, which are the first ten row errors in their
    order. *)
Theorem upload_shows_first_ten_errors
        (all_courses : list Course) (students : list Student) (grades : list Grade)
        (request : Request) (course_id : nat) :
  List.length (snd (fst (upload_grades all_courses students grades request course_id)))
  <= 11 /\
  forall course form message errs grades',
    is_authenticated (req_user request) = true ->
    get_user_role (req_user request) = Some teacher ->
    get_object_or_404 all_courses course_id = Some course ->
    check_grade_permission (req_user request) course = true ->
    req_method request = POST ->
    req_form request = Some form ->
    process_excel_grades students grades (excel_file form) course
      (form_semester form) (form_academic_year form)
      (Some (account (req_user request)))
    = (Tuple3 true message errs, grades') ->
    snd (fst (upload_grades all_courses students grades request course_id))
    = (msg_success, message) :: map (fun e => (msg_warning, e)) (firstn 10 errs).
Proof.
  split.
  - unfold upload_grades, role_required.
    destruct (is_authenticated (req_user request)); cbn [negb]; [|simpl; lia].
    destruct (get_user_role (req_user request)) as [[| |]|];
      cbn [existsb role_eqb orb]; try (simpl; lia).
    destruct (get_object_or_404 all_courses course_id) as [course|]; [|simpl; lia].
    destruct (check_grade_permission (req_user request) course); cbn [negb];
      [|simpl; lia].
    destruct (req_method request); [simpl; lia|].
    destruct (req_form request) as [form|]; [|simpl; lia].
    destruct (process_excel_grades _ _ _ _ _ _ _) as [[ok msg|[|] msg errs] g'];
      cbn [fst snd]; [simpl; lia | | simpl; lia].
    cbn [Datatypes.length]. rewrite length_map, length_firstn. lia.
  - intros course form message errs grades' Hauth Hrole Hcourse Hperm Hmeth Hform Hp.
    unfold upload_grades, role_required.
    rewrite Hauth, Hrole, Hcourse, Hperm, Hmeth, Hform. simpl.
    rewrite Hp. reflexivity.
Qed.

(** X12. [convert_grades_to_pdf] answers with a file only to an
    authenticated teacher of the course, and the table of the file is never
    empty: it holds exactly one row for each row of the Grade table that is
    of the course, in the order of [Grade.Meta.ordering]. *)
Theorem report_only_for_teacher_and_never_empty
        (excel_to_pdf : list ExportRow -> Rendering)
        (all_courses : list Course) (grades : list Grade)
        (request : Request) (course_id : nat)
        (filename : string) (data : list ExportRow) :
  fst (fst (convert_grades_to_pdf excel_to_pdf all_courses grades request course_id))
  = FileResponse filename data ->
  exists course t queryset,
    is_authenticated (req_user request) = true /\
    teacher_profile (req_user request) = Some t /\
    get_object_or_404 all_courses course_id = Some course /\
    course_in course (courses t) = true /\
    filename = code course ++ "_grades.pdf" /\
    Permutation queryset (filter (fun g => course_eqb (grade_course g) course) grades) /\
    Sorted (fun g1 g2 => meta_ordering_le g1 g2 = true) queryset /\
    data = map export_row queryset /\
    data <> [].
Proof.
  unfold convert_grades_to_pdf, role_required.
  destruct (is_authenticated (req_user request)) eqn:Hauth; cbn [negb];
    [|discriminate].
  destruct (get_user_role (req_user request)) as [[| |]|] eqn:Hrole;
    cbn [existsb role_eqb orb]; try discriminate.
  destruct (get_object_or_404 all_courses course_id) as [course|]; [|discriminate].
  unfold get_user_profile. rewrite Hrole.
  destruct (teacher_profile (req_user request)) as [t|]; cbn [option_map];
    [|discriminate].
  destruct (course_in course (courses t)) eqn:Hin; cbn [negb]; [|discriminate].
  cbv zeta. unfold grades_of_course.
  pose proof (order_by_meta_permutation
                (filter (fun g => course_eqb (grade_course g) course) grades)) as Hperm.
  pose proof (order_by_meta_sorted
                (filter (fun g => course_eqb (grade_course g) course) grades)) as Hsorted.
  destruct (order_by_meta (filter (fun g => course_eqb (grade_course g) course) grades))
    as [|g gs]; [discriminate|].
  destruct (excel_to_pdf _); cbn [fst]; try discriminate.
  intros [= <- <-].
  exists course, t, (g :: gs).
  repeat split; try reflexivity; try assumption.
  discriminate.
Qed.

End GradeViews.

Lemma upload_writes_only_when_permitted_witness :
  exists course t form df,
    is_authenticated Sample.teacher_user = true /\
    teacher_profile Sample.teacher_user = Some t /\
    get_object_or_404 [Sample.cs101] 1 = Some course /\
    course_in course (courses t) = true /\
    is_locked course = false /\
    POST = POST /\
    Some (Sample.form_of Sample.frame_one_row) = Some form /\
    excel_file form = Ok df /\
    required_columns_missing df = false.
Proof.
  apply (@upload_writes_only_when_permitted WholeNumbers.host [Sample.cs101]
           Sample.students []
           (Sample.prof_request POST (Some (Sample.form_of Sample.frame_one_row))) 1).
  discriminate.
Defined.

Lemma upload_shows_first_ten_errors_witness :
  snd (fst (upload_grades (host := WholeNumbers.host) [Sample.cs101] Sample.students []
              (Sample.prof_request POST
                 (Some (Sample.form_of Sample.frame_unknown_student_bad_percentage))) 1))
  = [(msg_success, "Successfully created/updated 0 grade(s). 1 error(s) occurred.");
     (msg_warning, "Error processing row 2: could not convert string to float: 'abc'")].
Proof.
  apply (proj2 (@upload_shows_first_ten_errors WholeNumbers.host [Sample.cs101]
                  Sample.students []
                  (Sample.prof_request POST
                     (Some (Sample.form_of Sample.frame_unknown_student_bad_percentage))) 1)
           Sample.cs101 (Sample.form_of Sample.frame_unknown_student_bad_percentage)
           "Successfully created/updated 0 grade(s). 1 error(s) occurred."
           ["Error processing row 2: could not convert string to float: 'abc'"] []);
    reflexivity.
Defined.

Lemma report_only_for_teacher_and_never_empty_witness :
  exists course t queryset,
    is_authenticated Sample.teacher_user = true /\
    teacher_profile Sample.teacher_user = Some t /\
    get_object_or_404 [Sample.cs101] 1 = Some course /\
    course_in course (courses t) = true /\
    "CS101_grades.pdf" = code course ++ "_grades.pdf" /\
    Permutation queryset
      (filter (fun g => course_eqb (grade_course g) course)
              [Sample.grade_b; Sample.grade_of_bob]) /\
    Sorted (fun g1 g2 => meta_ordering_le g1 g2 = true) queryset /\
    map export_row [Sample.grade_b; Sample.grade_of_bob] = map export_row queryset /\
    map export_row [Sample.grade_b; Sample.grade_of_bob] <> [].
Proof.
  apply (@report_only_for_teacher_and_never_empty WholeNumbers.host
           Sample.always_built [Sample.cs101] [Sample.grade_b; Sample.grade_of_bob]
           (Sample.prof_request GET None) 1).
  reflexivity.
Defined.


(* ================================================================== *)
(** * Login and dashboards *)

Section SessionProperties.

Context {host : Host}.

(** X13. After [dashboard_redirect] an authenticated user with a role lands
    on a dashboard that lets the user in: following the redirect gives a
    page, not another redirect.  An authenticated user without a role is
    sent to the login page, which sends the user back to
    [dashboard_redirect]. *)
Theorem dashboard_redirect_lands (request : Request) :
  is_authenticated (req_user request) = true ->
  match get_user_role (req_user request) with
  | Some r =>
      exists name template,
        dashboard_redirect request = (Redirect name None, []) /\
        follow request name = Some (Render template, [])
  | None =>
      dashboard_redirect request
      = (Redirect "edupace_app:login" None,
         [(msg_error, "Your account is not associated with any role.")]) /\
      follow request "edupace_app:login"
      = Some (Redirect "edupace_app:dashboard_redirect" None, []) /\
      exists messages,
        follow request "edupace_app:dashboard_redirect"
        = Some (Redirect "edupace_app:login" None, messages)
  end.
Proof.
  intros Hauth.
  unfold dashboard_redirect, follow, login_view, student_dashboard, teacher_dashboard,
    academic_board_dashboard, role_required, dashboard_redirect.
  cbn [req_user req_method req_form String.eqb Ascii.eqb Bool.eqb].
  rewrite Hauth. cbn [negb].
  destruct (get_user_role (req_user request)) as [[| |]|].
  - eexists _, _. split; reflexivity.
  - eexists _, _. split; reflexivity.
  - eexists _, _. split; reflexivity.
  - split; [reflexivity|]. split; [reflexivity|]. eexists. reflexivity.
Qed.

(** X14. [login_view] logs a user in only on a POST by a visitor who is not
    authenticated, with a valid form, when the role chosen in the form is
    the role of the account; it then redirects to [dashboard_redirect]. *)
Theorem login_only_with_own_role
        (request : Request) (form : option (User * Role)) (user : User) :
  snd (login_view request form) = Some user ->
  is_authenticated (req_user request) = false /\
  req_method request = POST /\
  exists role,
    form = Some (user, role) /\
    get_user_role user = Some role /\
    fst (fst (login_view request form))
    = Redirect "edupace_app:dashboard_redirect" None.
Proof.
  unfold login_view.
  destruct (is_authenticated (req_user request)); [discriminate|].
  destruct (req_method request); [discriminate|].
  destruct form as [[u role]|]; [|discriminate].
  destruct (role_is (get_user_role u) role) eqn:Hrole; cbn [negb snd fst];
    [|discriminate].
  intros [= ->].
  split; [reflexivity|]. split; [reflexivity|].
  exists role. split; [reflexivity|]. split; [|reflexivity].
  unfold role_is in Hrole.
  destruct (get_user_role user) as [r|]; [|discriminate].
  destruct r, role; try discriminate; reflexivity.
Qed.

End SessionProperties.

(* ================================================================== *)
(** * Locked courses under the course views *)

Section CourseViews.

Context {host : Host}.

Lemma get_course_or_404_found (table : list CourseRow) (course_id : nat)
      (r : CourseRow) :
  get_course_or_404 table course_id = Some r ->
  In r table /\ row_pk r = course_id.
Proof.
  unfold get_course_or_404. intros H.
  apply find_some in H. destruct H as [Hin Hpk].
  apply Nat.eqb_eq in Hpk. auto.
Qed.

Lemma NoDup_map_filter {A B : Type} (f : A -> B) (p : A -> bool) (l : list A) :
  NoDup (map f l) -> NoDup (map f (filter p l)).
Proof.
  induction l as [|x l IH]; simpl; intros Hnd; [constructor|].
  inversion Hnd as [|? ? Hnotin Hnd']; subst.
  destruct (p x); simpl; [|now apply IH].
  constructor; [|now apply IH].
  intros Hin. apply Hnotin.
  apply in_map_iff in Hin. destruct Hin as (y & Hy & Hin).
  apply filter_In in Hin. apply in_map_iff. exists y. tauto.
Qed.

Lemma check_course_edit_permission_unlocked (user : User) (course : Course) :
  check_course_edit_permission user course = true -> is_locked course = false.
Proof.
  unfold check_course_edit_permission.
  destruct (role_is (get_user_role user) academic_board); simpl; [|discriminate].
  now destruct (is_locked course).
Qed.

(** One request: the keys stay pairwise distinct and a locked row stays. *)
Lemma perform_keeps_locked (table : list CourseRow) (a : CourseAction) :
  NoDup (map row_pk table) ->
  fresh_keys [a] table ->
  NoDup (map row_pk (perform table a)) /\
  forall r, In r table -> is_locked (course_of r) = true -> In r (perform table a).
Proof.
  intros Hnd [Hfresh _].
  destruct a as [request form new_pk | request form course_id | request course_id];
    unfold perform.
  - unfold create_course, role_required.
    destruct (is_authenticated (req_user request)); cbn [negb snd]; [|auto].
    destruct (get_user_role (req_user request)) as [[| |]|];
      cbn [existsb role_eqb orb snd]; auto.
    destruct (req_method request); cbn [snd]; [auto|].
    destruct form as [f|]; cbn [snd]; [|auto].
    split.
    + rewrite map_app. simpl.
      apply NoDup_app; [exact Hnd | repeat constructor; simpl; tauto |].
      intros k Hk [<-|[]]. tauto.
    + intros r Hin _. apply in_or_app. now left.
  - unfold edit_course, role_required.
    destruct (is_authenticated (req_user request)); cbn [negb snd]; [|auto].
    destruct (get_user_role (req_user request)) as [[| |]|];
      cbn [existsb role_eqb orb snd]; auto.
    destruct (get_course_or_404 table course_id) as [r0|] eqn:Hfind; cbn [snd]; [|auto].
    destruct (check_course_edit_permission (req_user request) (course_of r0)) eqn:Hperm;
      cbn [negb snd]; [|auto].
    destruct (req_method request); cbn [snd]; [auto|].
    destruct form as [f|]; cbn [snd]; [|auto].
    apply check_course_edit_permission_unlocked in Hperm.
    apply get_course_or_404_found in Hfind. destruct Hfind as [Hin0 _].
    split.
    + rewrite map_map.
      erewrite map_ext; [exact Hnd|].
      intros x. cbv beta. destruct (Nat.eqb (row_pk x) (row_pk r0)); reflexivity.
    + intros r Hin Hlocked.
      apply in_map_iff. exists r. split; [|exact Hin].
      destruct (Nat.eqb (row_pk r) (row_pk r0)) eqn:Hpk; [|reflexivity].
      apply Nat.eqb_eq in Hpk.
      assert (r = r0) by (eapply NoDup_map_injective; eauto).
      subst r0. congruence.
  - unfold delete_course, role_required.
    destruct (is_authenticated (req_user request)); cbn [negb snd]; [|auto].
    destruct (get_user_role (req_user request)) as [[| |]|];
      cbn [existsb role_eqb orb snd]; auto.
    destruct (get_course_or_404 table course_id) as [r0|] eqn:Hfind; cbn [snd]; [|auto].
    destruct (check_course_edit_permission (req_user request) (course_of r0)) eqn:Hperm;
      cbn [negb snd]; [|auto].
    destruct (req_method request); cbn [snd]; [auto|].
    apply check_course_edit_permission_unlocked in Hperm.
    apply get_course_or_404_found in Hfind. destruct Hfind as [Hin0 _].
    split; [now apply NoDup_map_filter|].
    intros r Hin Hlocked. apply filter_In. split; [exact Hin|].
    apply negb_true_iff, Nat.eqb_neq. intros Hpk.
    assert (r = r0) by (eapply NoDup_map_injective; eauto).
    subst r0. congruence.
Qed.

(** X15. Through the views that create, edit and delete courses a locked
    course is out of reach: whatever the requests are and whoever sends
    them, a row of the Course table that is locked is in the table
    afterwards, unchanged, and so still locked. *)
Theorem locked_course_survives_course_views
        (actions : list CourseAction) (table : list CourseRow) :
  NoDup (map row_pk table) ->
  fresh_keys actions table ->
  forall r, In r table -> is_locked (course_of r) = true ->
            In r (perform_all actions table).
Proof.
  revert table. unfold perform_all.
  induction actions as [|a actions IH]; intros table Hnd Hfresh r Hin Hlocked; simpl.
  - exact Hin.
  - destruct Hfresh as [Ha Hrest].
    destruct (perform_keeps_locked table a Hnd (conj Ha I)) as [Hnd' Hkeep].
    apply IH; auto.
Qed.

End CourseViews.


Lemma dashboard_redirect_lands_witness :
  exists name template,
    dashboard_redirect (Campus.request_of Sample.teacher_user GET)
    = (Redirect name None, []) /\
    follow (Campus.request_of Sample.teacher_user GET) name
    = Some (Render template, []).
Proof.
  exact (@dashboard_redirect_lands WholeNumbers.host
           (Campus.request_of Sample.teacher_user GET) eq_refl).
Defined.

Lemma login_only_with_own_role_witness :
  is_authenticated Sample.anonymous = false /\
  POST = POST /\
  exists role,
    Some (Sample.teacher_user, teacher) = Some (Sample.teacher_user, role) /\
    get_user_role Sample.teacher_user = Some role /\
    fst (fst (login_view (Campus.request_of Sample.anonymous POST)
                (Some (Sample.teacher_user, teacher))))
    = Redirect "edupace_app:dashboard_redirect" None.
Proof.
  exact (@login_only_with_own_role WholeNumbers.host
           (Campus.request_of Sample.anonymous POST)
           (Some (Sample.teacher_user, teacher)) Sample.teacher_user eq_refl).
Defined.

Lemma locked_course_survives_course_views_witness :
  In Campus.row_cs102
     (perform_all
        [EditCourse (Campus.request_of Sample.board_user POST)
           (Some Campus.unlock_form) 2;
         DeleteCourse (Campus.request_of Sample.board_user POST) 2;
         DeleteCourse (Campus.request_of Sample.board_user POST) 1]
        [Campus.row_cs101; Campus.row_cs102]).
Proof.
  apply (@locked_course_survives_course_views WholeNumbers.host).
  - repeat constructor; simpl; intuition discriminate.
  - simpl. tauto.
  - simpl. tauto.
  - reflexivity.
Defined.

(* ================================================================== *)
(** * The learning-outcome views *)

Section OutcomeViews.

Context {host : Host}.

Lemma outcome_checks_pass (all_courses : list Course) (request : Request)
      (lo : LearningOutcome) (verb : string) (course : Course) :
  is_authenticated (req_user request) = true ->
  get_user_role (req_user request) = Some teacher ->
  outcome_checks all_courses request lo verb = inr course ->
  get_object_or_404 all_courses (lo_course lo) = Some course /\
  check_learning_outcome_permission (req_user request) course = true.
Proof.
  intros Hauth Hrole. unfold outcome_checks, get_user_profile.
  rewrite Hrole.
  destruct (get_object_or_404 all_courses (lo_course lo)) as [c|]; [|discriminate].
  destruct (teacher_profile (req_user request)) as [t|] eqn:Ht; cbn [option_map];
    [|discriminate].
  destruct (course_in c (courses t)) eqn:Hin; cbn [negb]; [|discriminate].
  destruct (is_locked c) eqn:Hlock; [discriminate|].
  intros [= <-]. split; [reflexivity|].
  unfold check_learning_outcome_permission.
  rewrite Hrole, Ht, Hin, Hlock. reflexivity.
Qed.

(** X16. The three learning-outcome views write to the table only on a POST
    by a user for whom [check_learning_outcome_permission] holds on the
    course of the outcome: a teacher of the course, the course not locked.
    The checks that the edit and delete views spell out themselves agree
    with the predicate the add view calls. *)
Theorem outcome_views_write_only_when_permitted
        (all_courses : list Course) (table : list LearningOutcome)
        (request : Request) :
  (forall form course_id new_pk,
      snd (add_learning_outcome all_courses table request form course_id new_pk)
      <> table ->
      exists course,
        get_object_or_404 all_courses course_id = Some course /\
        check_learning_outcome_permission (req_user request) course = true /\
        req_method request = POST) /\
  (forall form lo_id,
      snd (edit_learning_outcome all_courses table request form lo_id) <> table ->
      exists lo course,
        get_outcome_or_404 table lo_id = Some lo /\
        get_object_or_404 all_courses (lo_course lo) = Some course /\
        check_learning_outcome_permission (req_user request) course = true /\
        req_method request = POST) /\
  (forall lo_id,
      snd (delete_learning_outcome all_courses table request lo_id) <> table ->
      exists lo course,
        get_outcome_or_404 table lo_id = Some lo /\
        get_object_or_404 all_courses (lo_course lo) = Some course /\
        check_learning_outcome_permission (req_user request) course = true /\
        req_method request = POST).
Proof.
  split; [|split].
  - intros form course_id new_pk.
    unfold add_learning_outcome, role_required.
    destruct (is_authenticated (req_user request)); cbn [negb snd]; [|congruence].
    destruct (get_user_role (req_user request)) as [[| |]|];
      cbn [existsb role_eqb orb snd]; try congruence.
    destruct (get_object_or_404 all_courses course_id) as [course|]; cbn [snd];
      [|congruence].
    destruct (check_learning_outcome_permission (req_user request) course) eqn:Hperm;
      cbn [negb snd]; [|congruence].
    destruct (req_method request); cbn [snd]; [congruence|].
    destruct form as [f|]; cbn [snd]; [|congruence].
    destruct (code_taken _ _ _ _); cbn [snd]; [congruence|].
    intros _. exists course. auto.
  - intros form lo_id.
    unfold edit_learning_outcome, role_required.
    destruct (is_authenticated (req_user request)) eqn:Hauth; cbn [negb snd];
      [|congruence].
    destruct (get_user_role (req_user request)) as [[| |]|] eqn:Hrole;
      cbn [existsb role_eqb orb snd]; try congruence.
    destruct (get_outcome_or_404 table lo_id) as [lo|]; cbn [snd]; [|congruence].
    destruct (outcome_checks all_courses request lo "edit") as [[resp msgs]|course]
      eqn:Hchecks; cbn [snd]; [congruence|].
    destruct (outcome_checks_pass _ _ _ _ _ Hauth Hrole Hchecks) as [Hcourse Hperm].
    destruct (req_method request); cbn [snd]; [congruence|].
    destruct form as [f|]; cbn [snd]; [|congruence].
    destruct (code_taken _ _ _ _); cbn [snd]; [congruence|].
    intros _. exists lo, course. auto.
  - intros lo_id.
    unfold delete_learning_outcome, role_required.
    destruct (is_authenticated (req_user request)) eqn:Hauth; cbn [negb snd];
      [|congruence].
    destruct (get_user_role (req_user request)) as [[| |]|] eqn:Hrole;
      cbn [existsb role_eqb orb snd]; try congruence.
    destruct (get_outcome_or_404 table lo_id) as [lo|]; cbn [snd]; [|congruence].
    destruct (outcome_checks all_courses request lo "delete") as [[resp msgs]|course]
      eqn:Hchecks; cbn [snd]; [congruence|].
    destruct (outcome_checks_pass _ _ _ _ _ Hauth Hrole Hchecks) as [Hcourse Hperm].
    destruct (req_method request); cbn [snd]; [congruence|].
    intros _. exists lo, course. auto.
Qed.

End OutcomeViews.

Lemma outcome_views_write_only_when_permitted_witness :
  exists course,
    get_object_or_404 [Sample.cs101; Sample.cs102_locked] 1 = Some course /\
    check_learning_outcome_permission Sample.teacher_user course = true /\
    POST = POST.
Proof.
  apply (proj1 (@outcome_views_write_only_when_permitted WholeNumbers.host
                  [Sample.cs101; Sample.cs102_locked] [Campus.lo1]
                  (Campus.request_of Sample.teacher_user POST))
           (Some Campus.lo2_form) 1 2).
  discriminate.
Defined.


(* ================================================================== *)
(** * The rows the ingestion adds, and the normalisation of the labels *)

Section CreatedRows.

Context {host : Host}.

Variables (students : list Student) (course : Course) (sem ay : string)
          (cb : option Account) (cols : list string) (sid_col g_col : string)
          (pcol : option string).

Local Abbreviation step := (process_row students course sem ay cb cols sid_col g_col pcol).
Local Abbreviation loop := (process_rows students course sem ay cb cols sid_col g_col pcol).
Local Abbreviation written := (written_by_call students course sem ay cb).

Lemma write_written (s : Student) (gv : string) (pct : option number) (g : Grade) :
  PyStr.mem gv valid_grades = true ->
  written g -> written (write s course sem ay gv pct cb g).
Proof.
  intros Hgv (H1 & H2 & H3 & H4 & H5 & H6). unfold write.
  destruct (same_key s course sem ay g); [|repeat split; assumption].
  repeat split; simpl; assumption.
Qed.

Lemma step_added_rows (n index : nat) (row : list Cell) (st : LoopState) :
  n <= List.length (table st) ->
  Forall written (skipn n (table st)) ->
  n <= List.length (table (step index row st)) /\
  Forall written (skipn n (table (step index row st))).
Proof.
  intros Hn Hw. unfold process_row.
  destruct (row_percentage cols pcol row) as [pct|msg]; [|auto].
  destruct (Student_objects_get students _) as [s| |] eqn:Hget; auto.
  destruct (negb (PyStr.mem _ valid_grades)) eqn:Hmem; [auto|].
  apply negb_false_iff in Hmem.
  apply Student_objects_get_found in Hget. destruct Hget as [Hin _].
  destruct (update_or_create_cases (table st) s course sem ay
              (PyStr.upper (PyStr.strip (py_str (getitem cols row g_col)))) pct cb)
    as [[msg ->] | [(_ & _ & ->) | (g0 & _ & _ & ->)]]; cbn [table]; [auto | | ].
  - split; [rewrite length_app; lia|].
    rewrite skipn_app.
    replace (n - List.length (table st)) with 0 by lia.
    apply Forall_app. split; [exact Hw|].
    constructor; [|constructor]. repeat split; auto.
  - split; [rewrite length_map; exact Hn|].
    rewrite skipn_map. apply Forall_map.
    revert Hw. apply Forall_impl. intros x Hx. now apply write_written.
Qed.

Lemma loop_added_rows (n : nat) (rs : list (list Cell)) :
  forall index st,
    n <= List.length (table st) ->
    Forall written (skipn n (table st)) ->
    n <= List.length (table (loop index rs st)) /\
    Forall written (skipn n (table (loop index rs st))).
Proof.
  induction rs as [|row rs IH]; intros index st Hn Hw; simpl; [auto|].
  destruct (step_added_rows n index row st Hn Hw) as [Hn' Hw'].
  now apply IH.
Qed.

End CreatedRows.

(** X17. The rows the ingestion adds to the Grade table come after the rows
    that were there, and each is a row of the call: its course, semester and
    academic year are those of the call, its student is in the Student
    table, its grade is one of the enumeration and its author is the one
    given. *)
Theorem ingestion_adds_rows_of_the_call {host : Host}
        (students : list Student) (grades : list Grade) (excel : Result DataFrame)
        (course : Course) (sem ay : string) (cb : option Account) :
  List.length grades
  <= List.length (snd (process_excel_grades students grades excel course sem ay cb)) /\
  Forall (written_by_call students course sem ay cb)
    (skipn (List.length grades)
       (snd (process_excel_grades students grades excel course sem ay cb))).
Proof.
  assert (Hbase : Forall (written_by_call students course sem ay cb)
                    (skipn (List.length grades) grades)).
  { rewrite skipn_all. constructor. }
  destruct excel as [df|e]; [|split; [apply Nat.le_refl | exact Hbase]].
  destruct (required_columns_missing df) eqn:Hmiss.
  - rewrite (process_excel_grades_missing _ _ _ _ _ _ _ Hmiss).
    split; [apply Nat.le_refl | exact Hbase].
  - destruct (process_excel_grades_present students grades df course sem ay cb Hmiss)
      as (st & -> & ->).
    apply (loop_added_rows students course sem ay cb _ _ _ _ (List.length grades)
             (rows df) 0 {| table := grades; grades_created := 0; errors := [] |});
      [apply Nat.le_refl | exact Hbase].
Qed.

Lemma isspace_lower_char (c : ascii) :
  PyStr.isspace (PyStr.lower_char c) = PyStr.isspace c.
Proof. destruct c as [[] [] [] [] [] [] [] []]; reflexivity. Qed.

Lemma lower_char_idempotent (c : ascii) :
  PyStr.lower_char (PyStr.lower_char c) = PyStr.lower_char c.
Proof. destruct c as [[] [] [] [] [] [] [] []]; reflexivity. Qed.

Lemma lower_idempotent (s : string) : PyStr.lower (PyStr.lower s) = PyStr.lower s.
Proof.
  induction s as [|c s IH]; simpl; [reflexivity|].
  unfold PyStr.lower in *. simpl. now rewrite lower_char_idempotent, IH.
Qed.

Lemma lstrip_lower (s : string) :
  PyStr.lstrip (PyStr.lower s) = PyStr.lower (PyStr.lstrip s).
Proof.
  induction s as [|c s IH]; [reflexivity|].
  unfold PyStr.lower in *. cbn [PyStr.map_chars PyStr.lstrip].
  rewrite isspace_lower_char. destruct (PyStr.isspace c); [exact IH | reflexivity].
Qed.

Lemma rstrip_lower (s : string) :
  PyStr.rstrip (PyStr.lower s) = PyStr.lower (PyStr.rstrip s).
Proof.
  induction s as [|c s IH]; [reflexivity|].
  unfold PyStr.lower in *. cbn [PyStr.map_chars PyStr.rstrip].
  rewrite IH, isspace_lower_char.
  destruct (PyStr.rstrip s); cbn [PyStr.map_chars];
    [destruct (PyStr.isspace c); reflexivity | reflexivity].
Qed.

Lemma rstrip_idempotent (s : string) : PyStr.rstrip (PyStr.rstrip s) = PyStr.rstrip s.
Proof.
  induction s as [|c s IH]; [reflexivity|].
  cbn [PyStr.rstrip].
  destruct (PyStr.rstrip s) as [|d r] eqn:Hr.
  - destruct (PyStr.isspace c) eqn:Hc; [reflexivity|].
    cbn [PyStr.rstrip]. now rewrite Hc.
  - cbn [PyStr.rstrip]. cbn [PyStr.rstrip] in IH. now rewrite IH.
Qed.

Lemma lstrip_rstrip_head (c : ascii) (s : string) :
  PyStr.isspace c = false ->
  PyStr.lstrip (PyStr.rstrip (String c s)) = PyStr.rstrip (String c s).
Proof.
  intros Hc. cbn [PyStr.rstrip].
  destruct (PyStr.rstrip s); [rewrite Hc|]; cbn [PyStr.lstrip]; now rewrite Hc.
Qed.

Lemma lstrip_head (s : string) :
  match PyStr.lstrip s with
  | EmptyString => True
  | String c _ => PyStr.isspace c = false
  end.
Proof.
  induction s as [|c s IH]; [exact I|].
  cbn [PyStr.lstrip]. destruct (PyStr.isspace c) eqn:Hc; [exact IH | exact Hc].
Qed.

Lemma strip_idempotent (s : string) : PyStr.strip (PyStr.strip s) = PyStr.strip s.
Proof.
  unfold PyStr.strip.
  pose proof (lstrip_head s) as Hhead.
  destruct (PyStr.lstrip s) as [|c t]; [reflexivity|].
  rewrite (lstrip_rstrip_head c t Hhead). apply rstrip_idempotent.
Qed.

Lemma normalize_columns_idempotent (cols : list string) :
  normalize_columns (normalize_columns cols) = normalize_columns cols.
Proof.
  unfold normalize_columns. rewrite map_map. apply map_ext. intros c.
  unfold PyStr.strip at 1.
  rewrite lstrip_lower, rstrip_lower. fold (PyStr.strip (PyStr.strip c)).
  now rewrite strip_idempotent, lower_idempotent.
Qed.

(** X18. The ingestion does not depend on the case of the header labels nor
    on the blanks around them: a sheet whose labels are rewritten stripped
    and in lower case gives the same result and the same table. *)
Theorem ingestion_ignores_case_and_blanks_of_header {host : Host}
        (students : list Student) (grades : list Grade)
        (cols : list string) (rs : list (list Cell))
        (course : Course) (sem ay : string) (cb : option Account) :
  process_excel_grades students grades
    (Ok {| columns := normalize_columns cols; rows := rs |}) course sem ay cb
  = process_excel_grades students grades
      (Ok {| columns := cols; rows := rs |}) course sem ay cb.
Proof.
  unfold process_excel_grades. cbn [columns rows].
  now rewrite normalize_columns_idempotent.
Qed.
